(** * ShopSage: the search / enrich / judge pipeline of [shopsage_core.py]

    A shallow embedding of [ScoutAgent.search], [JudgeAgent.judge_products],
    [JudgeAgent._call_openai], [ShopSage.run_pipeline] and the module-level
    [enrich], with the two HTTP backends as oracles over the history of calls,
    followed by the properties the specification states about them.

    Python values are the values of JSON, a [str] is a list of code points, a
    computation threads the trace of requests sent and returns or raises. The
    regular expression of [run_pipeline] is run by a backtracking matcher for
    the operators it uses. What the program prints on failures is left out,
    and so are the environment look-ups of the constructors: the agents are
    taken as built. *)

From Stdlib Require Import ZArith NArith List Ascii String Lia Bool.
From stdpp Require Import base option list gmap.

Local Open Scope N_scope.

(** ** Python strings

    A [str] is a sequence of Unicode code points. *)

Definition char := N.
Definition pystr := list char.

(** A literal of the source, written in ASCII. *)
Definition py (s : string) : pystr :=
  List.map N_of_ascii (list_ascii_of_string s).

(** [str.isspace] on one code point, which is also the class [\s] of [re] on
    [str] patterns and the set [str.strip] removes. *)
Definition isspace (c : char) : bool :=
  ((9 <=? c) && (c <=? 13)) || ((28 <=? c) && (c <=? 32))
  || (c =? 133) || (c =? 160) || (c =? 5760)
  || ((8192 <=? c) && (c <=? 8202))
  || (c =? 8232) || (c =? 8233) || (c =? 8239) || (c =? 8287)
  || (c =? 12288).

Fixpoint lstrip (s : pystr) : pystr :=
  match s with
  | c :: s' => if isspace c then lstrip s' else s
  | [] => []
  end.

Definition rstrip (s : pystr) : pystr := rev (lstrip (rev s)).

(** [s.strip()] *)
Definition strip (s : pystr) : pystr := rstrip (lstrip s).

(** [s[:n]] for [n >= 0], on a [str] and on a [list] alike. *)
Definition slice_to {A} (n : nat) (s : list A) : list A := take n s.

(** ** The fragment of [re] that [vs_pattern] uses

    The matcher backtracks the way [sre] does: alternatives and repetition
    counts are tried in priority order and the first overall success wins. The
    continuation [k] stands for the rest of the pattern. *)

Inductive regex :=
| In_ (p : char -> bool)        (* one character of a class *)
| Cat (r1 r2 : regex)
| Branch (r1 r2 : regex)        (* r1|r2 *)
| MinPlus (p : char -> bool)    (* x+? *)
| MaxPlus (p : char -> bool)    (* x+  *)
| MaxOpt (p : char -> bool)     (* x?  *)
| Group (n : nat) (r : regex)   (* capturing group number n *)
| AtEnd.                        (* $ without MULTILINE *)

(** The marks of a match: group number and captured text, latest first. *)
Definition marks := list (nat * pystr).

Fixpoint group (n : nat) (g : marks) : option pystr :=
  match g with
  | (m, t) :: g' => if Nat.eqb m n then Some t else group n g'
  | [] => None
  end.

(** After the mandatory first character of [x+?]: try the rest of the pattern
    first, take one more character only when that fails. *)
Fixpoint min_tail {R} (p : char -> bool) (k : pystr -> option R) (s : pystr)
  : option R :=
  match k s with
  | Some x => Some x
  | None =>
      match s with
      | c :: s' => if p c then min_tail p k s' else None
      | [] => None
      end
  end.

(** After the mandatory first character of [x+]: take as many characters as
    possible, give them back one at a time. *)
Fixpoint max_tail {R} (p : char -> bool) (k : pystr -> option R) (s : pystr)
  : option R :=
  match s with
  | c :: s' =>
      if p c then
        match max_tail p k s' with
        | Some x => Some x
        | None => k s
        end
      else k s
  | [] => k s
  end.

Fixpoint sre_match {R} (r : regex) (s : pystr) (g : marks)
    (k : pystr -> marks -> option R) : option R :=
  match r with
  | In_ p =>
      match s with
      | c :: s' => if p c then k s' g else None
      | [] => None
      end
  | Cat r1 r2 => sre_match r1 s g (fun s' g' => sre_match r2 s' g' k)
  | Branch r1 r2 =>
      match sre_match r1 s g k with
      | Some x => Some x
      | None => sre_match r2 s g k
      end
  | MinPlus p =>
      match s with
      | c :: s' => if p c then min_tail p (fun s'' => k s'' g) s' else None
      | [] => None
      end
  | MaxPlus p =>
      match s with
      | c :: s' => if p c then max_tail p (fun s'' => k s'' g) s' else None
      | [] => None
      end
  | MaxOpt p =>
      match s with
      | c :: s' =>
          if p c then
            match k s' g with
            | Some x => Some x
            | None => k s g
            end
          else k s g
      | [] => k s g
      end
  | Group n r =>
      sre_match r s g
        (fun s' g' => k s' ((n, take (length s - length s') s) :: g'))
  | AtEnd =>
      match s with
      | [] => k s g
      | [c] => if c =? 10 then k s g else None
      | _ => None
      end
  end.

(** [re.search]: the first start position, from the left, with a match. *)
Fixpoint sre_search (r : regex) (s : pystr) : option marks :=
  match sre_match r s [] (fun _ g => Some g) with
  | Some g => Some g
  | None =>
      match s with
      | _ :: s' => sre_search r s'
      | [] => None
      end
  end.

(** The classes of [vs_pattern]. *)
Definition any_char (c : char) : bool := negb (c =? 10).      (* .  *)
Definition lit (a : char) (c : char) : bool := c =? a.
(** [v] and [s] under [re.IGNORECASE]: both cases, and for [s] the long s
    U+017F that [sre] lists as its equivalent. *)
Definition ci_v (c : char) : bool := (c =? 118) || (c =? 86).
Definition ci_s (c : char) : bool := (c =? 115) || (c =? 83) || (c =? 383).

(** [r"(.+?)\s+vs\.?\s+(.+?)(?:\?|$)"] with [re.IGNORECASE] *)
Definition vs_pattern : regex :=
  Cat (Group 1 (MinPlus any_char))
 (Cat (MaxPlus isspace)
 (Cat (In_ ci_v)
 (Cat (In_ ci_s)
 (Cat (MaxOpt (lit 46))
 (Cat (MaxPlus isspace)
 (Cat (Group 2 (MinPlus any_char))
      (Branch (In_ (lit 63)) AtEnd))))))).

(** ** Python values

    The values the pipeline handles are the ones [json] decodes to and encodes
    from. A [dict] keeps its keys in insertion order, each key once. A number
    is kept as the text of its literal: no operation of the pipeline looks
    inside one. *)

#[warnings="-register-all"]
Inductive value :=
| VNone
| VBool (b : bool)
| VNum (literal : pystr)
| VStr (s : pystr)
| VList (l : list value)
| VDict (d : list (pystr * value)).

Abbreviation dict := (list (pystr * value)) (only parsing).

Fixpoint dict_lookup (k : pystr) (d : dict) : option value :=
  match d with
  | (k', v) :: d' => if decide (k' = k) then Some v else dict_lookup k d'
  | [] => None
  end.

(** [d[k] = v]: the value is replaced where the key stands, a new key goes
    last. *)
Fixpoint dict_set (k : pystr) (v : value) (d : dict) : dict :=
  match d with
  | (k', v') :: d' =>
      if decide (k' = k) then (k', v) :: d' else (k', v') :: dict_set k v d'
  | [] => [(k, v)]
  end.

Definition keys (d : dict) : list pystr := List.map fst d.

(** ** Exceptions and the monad of the embedding *)

Inductive exn :=
| AttributeError
| TypeError
| KeyError
| JSONDecodeError
| HTTPError.

Inductive outcome (A : Type) :=
| Returned (a : A)
| Raised (e : exn).
Arguments Returned {A} a.
Arguments Raised {A} e.

(** A computation over a state [S] that returns or raises. *)
Definition M (S A : Type) : Type := S -> outcome A * S.

Definition ret {S A} (a : A) : M S A := fun s => (Returned a, s).

Definition lift {S A} (o : outcome A) : M S A := fun s => (o, s).

Definition bind {S A B} (m : M S A) (f : A -> M S B) : M S B :=
  fun s =>
    match m s with
    | (Returned a, s') => f a s'
    | (Raised e, s') => (Raised e, s')
    end.

(** [try: m  except <catches>: h] *)
Definition try_except {S A} (m : M S A) (catches : exn -> bool) (h : M S A)
  : M S A :=
  fun s =>
    match m s with
    | (Raised e, s') => if catches e then h s' else (Raised e, s')
    | r => r
    end.

Notation "x <- m ;; k" := (bind m (fun x => k))
  (at level 100, m at next level, right associativity).

(** [except Exception]: every exception of the model is one. *)
Definition Exception (e : exn) : bool := true.

(** [except json.JSONDecodeError] *)
Definition only_JSONDecodeError (e : exn) : bool :=
  match e with JSONDecodeError => true | _ => false end.

(** ** Operations on values, as Python evaluates them *)

(** [x.get(k, default)]: only a [dict] has the method. *)
Definition py_get (x : value) (k : pystr) (dflt : value) : outcome value :=
  match x with
  | VDict d => Returned (default dflt (dict_lookup k d))
  | _ => Raised AttributeError
  end.

(** [x[k]] for a string key: a [dict] without the key raises [KeyError],
    any other value [TypeError]. *)
Definition py_item (x : value) (k : pystr) : outcome value :=
  match x with
  | VDict d =>
      match dict_lookup k d with
      | Some v => Returned v
      | None => Raised KeyError
      end
  | _ => Raised TypeError
  end.

(** [for item in x]: the items a loop over [x] visits. *)
Definition py_iter (x : value) : outcome (list value) :=
  match x with
  | VList l => Returned l
  | VStr s => Returned (List.map (fun c => VStr [c]) s)
  | VDict d => Returned (List.map VStr (keys d))
  | _ => Raised TypeError
  end.

(** [x[:n]]: a [str] and a [list] can be sliced, nothing else the decoder
    produces can. *)
Definition py_slice_to (x : value) (n : nat) : outcome value :=
  match x with
  | VStr s => Returned (VStr (slice_to n s))
  | VList l => Returned (VList (slice_to n l))
  | _ => Raised TypeError
  end.

(** ** The two backends

    Every request the program sends is recorded. A backend answers from the
    requests sent so far and the request at hand, which covers any behaviour
    of the remote services, failures included. *)

Inductive call :=
| Search (query : pystr) (max_results : Z)
| Chat (system_prompt : pystr) (user_content : value) (json_mode : bool).

Definition trace := list call.

(** What [client.post] followed by [raise_for_status] ends in. *)
Inductive http_reply :=
| TransportError
| StatusError (code : Z)
| Body (text : pystr).

Record backends := {
  (* POST https://api.tavily.com/search *)
  tavily : trace -> pystr -> Z -> http_reply;
  (* chat.completions.create(...).choices[0].message.content, [None] when
     anything in that expression raises *)
  openai : trace -> pystr -> value -> bool -> option pystr
}.

Definition is_search (c : call) : bool :=
  match c with Search _ _ => true | Chat _ _ _ => false end.

Definition is_judge_chat (c : call) : bool :=
  match c with Chat _ _ true => true | _ => false end.

(** The string constants of the source. *)
Definition nl : pystr := [10].
Definition k_results := py "results".
Definition k_title := py "title".
Definition k_url := py "url".
Definition k_content := py "content".
Definition k_snippet := py "snippet".
Definition k_summary := py "summary".
Definition k_query := py "query".
Definition k_winner := py "winner".
Definition k_ranking := py "ranking".
Definition k_reasons := py "reasons".
Definition k_sources := py "sources".

Definition extract_system_prompt : pystr :=
  py "You are a meticulous shopping researcher. Extract and summarize:" ++ nl
  ++ py "        1. Key specifications" ++ nl
  ++ py "        2. Price (in USD if available)" ++ nl
  ++ py "        3. Main pros and cons" ++ nl
  ++ py "        4. Any notable features" ++ nl
  ++ py "        " ++ nl
  ++ py "        Format as a concise summary.".

Definition judge_system_prompt : pystr :=
  py "You are an expert tech reviewer." ++ nl
  ++ py "        Analyze the products and return a JSON response with:" ++ nl
  ++ py "        - winner: string (best overall product or chosen between A/B)"
  ++ nl
  ++ py "        - ranking: list (ordered product names from best to worst)"
  ++ nl
  ++ py "        - reasons: list of strings "
  ++ py "(key reasons for the recommendation)" ++ nl
  ++ py "        " ++ nl
  ++ py "        Consider factors like value, specs, reliability, "
  ++ py "and user needs.".

(** The value [judge_products] returns when decoding fails. *)
Definition fallback_verdict : value :=
  VDict [ (k_winner, VStr (py "Unable to determine"));
          (k_ranking, VList []);
          (k_reasons, VList [VStr (py "Error parsing recommendation")]) ].

(** ** The agents *)

Section Agents.

(** [json.loads] on a [str], [None] standing for [json.JSONDecodeError];
    [httpx]'s [response.json()] is the same decoder on the body. *)
Variable json_loads : pystr -> option value.
(** [json.dumps(_, indent=2)] *)
Variable json_dumps : value -> pystr.
Variable w : backends.

Definition loads (text : pystr) : outcome value :=
  match json_loads text with
  | Some v => Returned v
  | None => Raised JSONDecodeError
  end.

(** [client.post(...)] and [response.raise_for_status()] *)
Definition post_search (query : pystr) (max_results : Z) : M trace pystr :=
  fun t =>
    let t' := t ++ [Search query max_results] in
    match tavily w t query max_results with
    | Body text => (Returned text, t')
    | TransportError | StatusError _ => (Raised HTTPError, t')
    end.

(** The loop of [ScoutAgent.search] over the items of the response. *)
Fixpoint search_loop (items : list value) (results : list value)
  : outcome (list value) :=
  match items with
  | [] => Returned results
  | result :: rest =>
      match py_get result k_title (VStr []) with
      | Raised e => Raised e
      | Returned title =>
      match py_get result k_url (VStr []) with
      | Raised e => Raised e
      | Returned url =>
      match py_get result k_content (VStr []) with
      | Raised e => Raised e
      | Returned content =>
      match py_slice_to content 500 with
      | Raised e => Raised e
      | Returned snippet =>
          search_loop rest
            (results ++ [VDict [ (k_title, title); (k_url, url);
                                 (k_snippet, snippet) ]])
      end end end end
  end.

(** [ScoutAgent.search] *)
Definition search (query : pystr) (max_results : Z) : M trace (list value) :=
  try_except
    (text <- post_search query max_results ;;
     data <- lift (loads text) ;;
     items <- lift (py_get data k_results (VList [])) ;;
     items <- lift (py_iter items) ;;
     lift (search_loop items []))
    Exception
    (ret []).

(** [JudgeAgent._call_openai] *)
Definition _call_openai (system_prompt : pystr) (user_prompt : value)
    (json_mode : bool) : M trace pystr :=
  fun t =>
    let t' := t ++ [Chat system_prompt user_prompt json_mode] in
    match openai w t system_prompt user_prompt json_mode with
    | Some content => (Returned (strip content), t')
    | None => (Returned [], t')
    end.

(** [JudgeAgent.extract_product_info] *)
Definition extract_product_info (snippet : value) : M trace pystr :=
  _call_openai extract_system_prompt snippet false.

Definition judge_user_prompt (question : pystr) (products : list value)
  : pystr :=
  py "Question: " ++ question ++ nl ++ nl ++ py "Product briefs:" ++ nl
  ++ json_dumps (VList products).

(** [JudgeAgent.judge_products] *)
Definition judge_products (question : pystr) (products : list value)
  : M trace value :=
  response <- _call_openai judge_system_prompt
                (VStr (judge_user_prompt question products)) true ;;
  try_except (lift (loads response)) only_JSONDecodeError
    (ret fallback_verdict).

(** ** The pipeline *)

(** The search step of [ShopSage.run_pipeline]. *)
Definition find_hits (question : pystr) : M trace (list value) :=
  match sre_search vs_pattern question with
  | Some vs_match =>
      product_a <- lift (match group 1 vs_match with
                         | Some a => Returned (strip a)
                         | None => Raised AttributeError
                         end) ;;
      product_b <- lift (match group 2 vs_match with
                         | Some b => Returned (strip b)
                         | None => Raised AttributeError
                         end) ;;
      hits_a <- search product_a 4 ;;
      hits_b <- search product_b 4 ;;
      ret (hits_a ++ hits_b)
  | None => search question 8
  end.

(** The enrichment loop of [ShopSage.run_pipeline]. *)
Fixpoint enrich_loop (hits : list value) (enriched_products : list value)
  : M trace (list value) :=
  match hits with
  | [] => ret enriched_products
  | hit :: rest =>
      snippet <- lift (py_item hit k_snippet) ;;
      summary <- extract_product_info snippet ;;
      title <- lift (py_item hit k_title) ;;
      url <- lift (py_item hit k_url) ;;
      snippet <- lift (py_item hit k_snippet) ;;
      enrich_loop rest
        (enriched_products
         ++ [VDict [ (k_title, title); (k_url, url); (k_snippet, snippet);
                     (k_summary, VStr summary) ]])
  end.

(** The result [ShopSage.run_pipeline] builds from the verdict. *)
Definition assemble (question : pystr) (verdict : value)
    (enriched_products : list value) : outcome value :=
  match py_get verdict k_winner (VStr []) with
  | Raised e => Raised e
  | Returned winner =>
  match py_get verdict k_ranking (VList []) with
  | Raised e => Raised e
  | Returned ranking =>
  match py_get verdict k_reasons (VList []) with
  | Raised e => Raised e
  | Returned reasons =>
      Returned (VDict [ (k_query, VStr question); (k_winner, winner);
                        (k_ranking, ranking); (k_reasons, reasons);
                        (k_sources, VList (slice_to 4 enriched_products)) ])
  end end end.

(** The steps of [ShopSage.run_pipeline] that follow the search step. *)
Definition enrich_and_judge (question : pystr) (hits : list value)
  : M trace value :=
  enriched_products <- enrich_loop hits [] ;;
  verdict <- judge_products question enriched_products ;;
  lift (assemble question verdict enriched_products).

(** [ShopSage.run_pipeline] *)
Definition run_pipeline (question : pystr) : M trace value :=
  hits <- find_hits question ;;
  enriched_products <- enrich_loop hits [] ;;
  verdict <- judge_products question enriched_products ;;
  lift (assemble question verdict enriched_products).

End Agents.

(** ** A reference [json] codec

    The agents above are stated over any decoder and encoder. This one follows
    CPython's [json] module on [str] input (strict mode, [NaN] and [Infinity]
    accepted, duplicate keys keeping the last value) and serves to run the
    pipeline on concrete backends. Numbers keep the text of their literal. *)

Module Json.

Definition is_ws (c : char) : bool :=
  (c =? 32) || (c =? 9) || (c =? 10) || (c =? 13).

Fixpoint skip_ws (s : pystr) : pystr :=
  match s with
  | c :: s' => if is_ws c then skip_ws s' else s
  | [] => []
  end.

Definition isdigit (c : char) : bool := (48 <=? c) && (c <=? 57).

Definition hexval (c : char) : option N :=
  if isdigit c then Some (c - 48)
  else if (97 <=? c) && (c <=? 102) then Some (c - 87)
  else if (65 <=? c) && (c <=? 70) then Some (c - 55)
  else None.

Definition hex4 (a b c d : char) : option N :=
  match hexval a, hexval b, hexval c, hexval d with
  | Some x, Some y, Some z, Some u => Some (((x * 16 + y) * 16 + z) * 16 + u)
  | _, _, _, _ => None
  end.

Definition unescape (c : char) : option char :=
  if c =? 34 then Some 34 else if c =? 92 then Some 92
  else if c =? 47 then Some 47 else if c =? 98 then Some 8
  else if c =? 102 then Some 12 else if c =? 110 then Some 10
  else if c =? 114 then Some 13 else if c =? 116 then Some 9
  else None.

Definition is_high (u : N) : bool := (55296 <=? u) && (u <=? 56319).
Definition is_low (u : N) : bool := (56320 <=? u) && (u <=? 57343).

(** The text of a string literal after its opening quote. *)
Fixpoint scanstring (s : pystr) (acc : pystr) : option (pystr * pystr) :=
  match s with
  | [] => None
  | c :: s' =>
      if c =? 34 then Some (acc, s')
      else if c =? 92 then
        match s' with
        | [] => None
        | e :: s'' =>
            if e =? 117 then
              match s'' with
              | h1 :: h2 :: h3 :: h4 :: s3 =>
                  match hex4 h1 h2 h3 h4 with
                  | None => None
                  | Some u =>
                      match s3 with
                      | b :: v :: l1 :: l2 :: l3 :: l4 :: s4 =>
                          if is_high u && (b =? 92) && (v =? 117) then
                            match hex4 l1 l2 l3 l4 with
                            | None => None
                            | Some u2 =>
                                if is_low u2 then
                                  scanstring s4
                                    (acc ++ [65536 + (u - 55296) * 1024
                                             + (u2 - 56320)])
                                else scanstring s3 (acc ++ [u])
                            end
                          else scanstring s3 (acc ++ [u])
                      | _ => scanstring s3 (acc ++ [u])
                      end
                  end
              | _ => None
              end
            else
              match unescape e with
              | Some x => scanstring s'' (acc ++ [x])
              | None => None
              end
        end
      else if c <? 32 then None
      else scanstring s' (acc ++ [c])
  end.

Fixpoint span_digits (s : pystr) : pystr * pystr :=
  match s with
  | c :: s' =>
      if isdigit c then let (ds, r) := span_digits s' in (c :: ds, r)
      else ([], s)
  | [] => ([], [])
  end.

(** The literal of a number at the head of [s], and what follows it. *)
Definition match_number (s : pystr) : option (pystr * pystr) :=
  let (sign, s1) :=
    match s with
    | c :: s' => if c =? 45 then ([c], s') else ([], s)
    | [] => ([], s)
    end in
  match s1 with
  | [] => None
  | c :: s2 =>
      let int_part :=
        if c =? 48 then Some ([c], s2)
        else if isdigit c then
          let (ds, r) := span_digits s2 in Some (c :: ds, r)
        else None in
      match int_part with
      | None => None
      | Some (ip, r) =>
          let (frac, r1) :=
            match r with
            | d :: x :: r' =>
                if (d =? 46) && isdigit x then
                  let (ds, r'') := span_digits r' in (d :: x :: ds, r'')
                else ([], r)
            | _ => ([], r)
            end in
          let (ex, r2) :=
            match r1 with
            | e :: r' =>
                if (e =? 101) || (e =? 69) then
                  let (sg, r'') :=
                    match r' with
                    | g :: r3 =>
                        if (g =? 43) || (g =? 45) then ([g], r3)
                        else ([], r')
                    | [] => ([], r')
                    end in
                  let (ds, r4) := span_digits r'' in
                  match ds with
                  | [] => ([], r1)
                  | _ => (e :: sg ++ ds, r4)
                  end
                else ([], r1)
            | [] => ([], r1)
            end in
          Some (sign ++ ip ++ frac ++ ex, r2)
      end
  end.

(** [s] without the prefix [p], when it starts with it. *)
Fixpoint after (p s : pystr) : option pystr :=
  match p, s with
  | [], _ => Some s
  | a :: p', b :: s' => if a =? b then after p' s' else None
  | _ :: _, [] => None
  end.

Definition constant (s : pystr) : option (value * pystr) :=
  match after (py "null") s with
  | Some r => Some (VNone, r)
  | None =>
  match after (py "true") s with
  | Some r => Some (VBool true, r)
  | None =>
  match after (py "false") s with
  | Some r => Some (VBool false, r)
  | None =>
  match after (py "NaN") s with
  | Some r => Some (VNum (py "NaN"), r)
  | None =>
  match after (py "Infinity") s with
  | Some r => Some (VNum (py "Infinity"), r)
  | None =>
  match after (py "-Infinity") s with
  | Some r => Some (VNum (py "-Infinity"), r)
  | None => None
  end end end end end end.

Fixpoint scan_once (fuel : nat) (s : pystr) : option (value * pystr) :=
  match fuel with
  | O => None
  | S fuel =>
      match s with
      | [] => None
      | c :: s' =>
          if c =? 34 then
            match scanstring s' [] with
            | Some (t, r) => Some (VStr t, r)
            | None => None
            end
          else if c =? 123 then
            match skip_ws s' with
            | [] => None
            | c1 :: s2 =>
                if c1 =? 125 then Some (VDict [], s2)
                else scan_members fuel (c1 :: s2) []
            end
          else if c =? 91 then
            match skip_ws s' with
            | [] => None
            | c1 :: s2 =>
                if c1 =? 93 then Some (VList [], s2)
                else scan_items fuel (c1 :: s2) []
            end
          else
            match constant s with
            | Some r => Some r
            | None =>
                match match_number s with
                | Some (n, r) => Some (VNum n, r)
                | None => None
                end
            end
      end
  end
with scan_items (fuel : nat) (s : pystr) (acc : list value)
  : option (value * pystr) :=
  match fuel with
  | O => None
  | S fuel =>
      match scan_once fuel s with
      | None => None
      | Some (v, s1) =>
          match skip_ws s1 with
          | [] => None
          | c :: s2 =>
              if c =? 93 then Some (VList (acc ++ [v]), s2)
              else if c =? 44 then scan_items fuel (skip_ws s2) (acc ++ [v])
              else None
          end
      end
  end
with scan_members (fuel : nat) (s : pystr) (acc : dict)
  : option (value * pystr) :=
  match fuel with
  | O => None
  | S fuel =>
      match s with
      | [] => None
      | q :: s0 =>
          if negb (q =? 34) then None
          else
            match scanstring s0 [] with
            | None => None
            | Some (key, s1) =>
                match skip_ws s1 with
                | [] => None
                | c :: s2 =>
                    if negb (c =? 58) then None
                    else
                      match scan_once fuel (skip_ws s2) with
                      | None => None
                      | Some (v, s3) =>
                          match skip_ws s3 with
                          | [] => None
                          | c' :: s4 =>
                              if c' =? 125 then
                                Some (VDict (dict_set key v acc), s4)
                              else if c' =? 44 then
                                scan_members fuel (skip_ws s4)
                                  (dict_set key v acc)
                              else None
                          end
                      end
                end
            end
      end
  end.

(** [json.loads] *)
Definition loads (s : pystr) : option value :=
  match s with
  | c :: _ =>
      if c =? 65279 then None
      else
        match scan_once (2 * length s + 2) (skip_ws s) with
        | Some (v, r) =>
            match skip_ws r with
            | [] => Some v
            | _ :: _ => None
            end
        | None => None
        end
  | [] => None
  end.

(** *** Encoding *)

Definition hexdigit (n : N) : char := if n <? 10 then 48 + n else 87 + n.

(** [\uXXXX] *)
Definition u_escape (n : N) : pystr :=
  [92; 117; hexdigit (n / 4096 mod 16); hexdigit (n / 256 mod 16);
   hexdigit (n / 16 mod 16); hexdigit (n mod 16)].

Definition escape_char (c : char) : pystr :=
  if c =? 34 then [92; 34] else if c =? 92 then [92; 92]
  else if c =? 10 then [92; 110] else if c =? 13 then [92; 114]
  else if c =? 9 then [92; 116] else if c =? 8 then [92; 98]
  else if c =? 12 then [92; 102]
  else if (32 <=? c) && (c <=? 126) then [c]
  else if c <? 65536 then u_escape c
  else u_escape (55296 + (c - 65536) / 1024 mod 1024)
       ++ u_escape (56320 + (c - 65536) mod 1024).

(** [encode_basestring_ascii] *)
Definition encode_str (s : pystr) : pystr :=
  [34] ++ List.concat (List.map escape_char s) ++ [34].

Definition newline_indent (level : nat) : pystr :=
  10 :: repeat 32 (2 * level)%nat.

Fixpoint join (sep : pystr) (parts : list pystr) : pystr :=
  match parts with
  | [] => []
  | [x] => x
  | x :: rest => x ++ sep ++ join sep rest
  end.

Fixpoint encode (level : nat) (v : value) : pystr :=
  match v with
  | VNone => py "null"
  | VBool true => py "true"
  | VBool false => py "false"
  | VNum n => n
  | VStr s => encode_str s
  | VList [] => py "[]"
  | VList l =>
      [91] ++ newline_indent (S level)
      ++ join (44 :: newline_indent (S level))
           ((fix items (l : list value) : list pystr :=
               match l with
               | [] => []
               | x :: l' => encode (S level) x :: items l'
               end) l)
      ++ newline_indent level ++ [93]
  | VDict [] => py "{}"
  | VDict d =>
      [123] ++ newline_indent (S level)
      ++ join (44 :: newline_indent (S level))
           ((fix members (d : list (pystr * value)) : list pystr :=
               match d with
               | [] => []
               | (k, x) :: d' =>
                   (encode_str k ++ py ": " ++ encode (S level) x)
                   :: members d'
               end) d)
      ++ newline_indent level ++ [125]
  end.

(** [json.dumps(v, indent=2)] *)
Definition dumps (v : value) : pystr := encode 0 v.

End Json.

(** ** Hits as objects: the module-level [enrich]

    [enrich] writes into the [dict] objects of the list it is given and
    returns that same list, so here the hits live in a store and a hit is a
    reference into it. Two entries of the list may be the same object. The
    loop of [run_pipeline] is given over the same store, to compare. The
    constructor [JudgeAgent()] is taken to succeed (both keys configured). *)

Module Store.

Abbreviation loc := nat (only parsing).

Record state := {
  heap : gmap loc (list (pystr * value));
  sent : trace
}.

Section Enrich.

Variable w : backends.

(** [hit[k]]. A reference always points to an object; the other case is
    there for totality. *)
Definition getitem (l : loc) (k : pystr) : M state value :=
  fun st =>
    match heap st !! l with
    | Some d => (py_item (VDict d) k, st)
    | None => (Raised TypeError, st)
    end.

(** [hit[k] = v] on the object itself. *)
Definition setitem (l : loc) (k : pystr) (v : value) : M state unit :=
  fun st =>
    match heap st !! l with
    | Some d =>
        (Returned tt,
         {| heap := <[l := dict_set k v d]> (heap st); sent := sent st |})
    | None => (Raised TypeError, st)
    end.

Definition extract (snippet : value) : M state pystr :=
  fun st =>
    let (r, t') := extract_product_info w snippet (sent st) in
    (r, {| heap := heap st; sent := t' |}).

Fixpoint enrich_each (hits : list loc) : M state unit :=
  match hits with
  | [] => ret tt
  | hit :: rest =>
      snippet <- getitem hit k_snippet ;;
      summary <- extract snippet ;;
      _ <- setitem hit k_summary (VStr summary) ;;
      enrich_each rest
  end.

(** [enrich(hits)] *)
Definition enrich (hits : list loc) : M state (list loc) :=
  _ <- enrich_each hits ;;
  ret hits.

(** The enrichment loop of [ShopSage.run_pipeline], the hits being
    objects. *)
Fixpoint enrich_loop (hits : list loc) (enriched_products : list value)
  : M state (list value) :=
  match hits with
  | [] => ret enriched_products
  | hit :: rest =>
      snippet <- getitem hit k_snippet ;;
      summary <- extract snippet ;;
      title <- getitem hit k_title ;;
      url <- getitem hit k_url ;;
      snippet <- getitem hit k_snippet ;;
      enrich_loop rest
        (enriched_products
         ++ [VDict [ (k_title, title); (k_url, url); (k_snippet, snippet);
                     (k_summary, VStr summary) ]])
  end.

End Enrich.


End Store.

(** ** What a match of the pattern is, without the search order *)

Inductive matches : regex -> pystr -> marks -> pystr -> marks -> Prop :=
| m_in p c s g :
    p c = true -> matches (In_ p) (c :: s) g s g
| m_cat r1 r2 s g s1 g1 s2 g2 :
    matches r1 s g s1 g1 -> matches r2 s1 g1 s2 g2 ->
    matches (Cat r1 r2) s g s2 g2
| m_branch_l r1 r2 s g s' g' :
    matches r1 s g s' g' -> matches (Branch r1 r2) s g s' g'
| m_branch_r r1 r2 s g s' g' :
    matches r2 s g s' g' -> matches (Branch r1 r2) s g s' g'
| m_min p c cs s g :
    forallb p (c :: cs) = true -> matches (MinPlus p) (c :: cs ++ s) g s g
| m_max p c cs s g :
    forallb p (c :: cs) = true -> matches (MaxPlus p) (c :: cs ++ s) g s g
| m_opt_some p c s g :
    p c = true -> matches (MaxOpt p) (c :: s) g s g
| m_opt_none p s g :
    matches (MaxOpt p) s g s g
| m_group n r s g s' g' :
    matches r s g s' g' ->
    matches (Group n r) s g s' ((n, take (length s - length s') s) :: g')
| m_end_eos g :
    matches AtEnd [] g [] g
| m_end_nl g :
    matches AtEnd [10] g [10] g.

(** The "A vs B" shape in the words of the specification: two free-text
    spans separated by the token "vs" in any case, with white space around
    it and an optional period after it, the second span ending at a question
    mark or at the end of the question (a final line break aside). *)

Definition free_text (x : pystr) : Prop :=
  x <> [] /\ forallb any_char x = true.

Definition white (x : pystr) : Prop :=
  x <> [] /\ forallb isspace x = true.

Definition terminated (post : pystr) : Prop :=
  post = [] \/ post = [10] \/ exists rest, post = 63 :: rest.

Definition vs_split (question a b : pystr) : Prop :=
  exists pre ws1 v s dot ws2 post,
    question = pre ++ a ++ ws1 ++ [v; s] ++ dot ++ ws2 ++ b ++ post
    /\ free_text a /\ white ws1
    /\ ci_v v = true /\ ci_s s = true
    /\ (dot = [] \/ dot = [46])
    /\ white ws2 /\ free_text b /\ terminated post.

Definition vs_shape (question : pystr) : Prop :=
  exists a b, vs_split question a b.

(** The requests of a trace that went to the search backend. *)
Definition searches (t : trace) : list call := List.filter is_search t.

(** The requests of a trace that asked for a verdict. *)
Definition judgings (t : trace) : list call := List.filter is_judge_chat t.

(** The text [_call_openai] hands back for a request sent after [t]. *)
Definition reply_text (w : backends) (t : trace) (system_prompt : pystr)
    (user_prompt : value) (json_mode : bool) : pystr :=
  match openai w t system_prompt user_prompt json_mode with
  | Some content => strip content
  | None => []
  end.

(** The request of the verdict for [products]. *)
Definition judge_call (json_dumps : value -> pystr) (question : pystr)
    (products : list value) : call :=
  Chat judge_system_prompt
    (VStr (judge_user_prompt json_dumps question products)) true.

(** A request for a summary. *)
Definition is_extract_chat (c : call) : Prop :=
  exists snippet, c = Chat extract_system_prompt snippet false.

(** The requests a computation sends when started after the history [t]. *)
Definition calls_of {A} (m : M trace A) (t : trace) : trace :=
  drop (length t) (snd (m t)).

(** A hit as [ScoutAgent.search] builds it. *)
Definition is_hit (h : value) : Prop :=
  exists title url snippet,
    h = VDict [ (k_title, title); (k_url, url); (k_snippet, snippet) ].

(** A hit next to the item of the response it was normalized from: title
    and url as the item has them (the empty string when it has none), the
    snippet the first 500 elements of its content. *)
Definition normalized (item hit : value) : Prop :=
  exists d snippet,
    item = VDict d
    /\ py_slice_to (default (VStr []) (dict_lookup k_content d)) 500
       = Returned snippet
    /\ hit = VDict [ (k_title, default (VStr []) (dict_lookup k_title d));
                     (k_url, default (VStr []) (dict_lookup k_url d));
                     (k_snippet, snippet) ].

(** A product of the enrichment loop next to the hit it was built from. *)
Definition enriched_of (hit product : value) : Prop :=
  exists title url snippet summary,
    hit = VDict [ (k_title, title); (k_url, url); (k_snippet, snippet) ]
    /\ product = VDict [ (k_title, title); (k_url, url); (k_snippet, snippet);
                         (k_summary, VStr summary) ].

(** ** Backends to run the pipeline on

    A search backend that answers every query with [max_results] results, a
    chat backend with fixed answers, and backends that are down. *)

Module Fake.

Definition result (query : pystr) (i : nat) : value :=
  VDict [ (k_title, VStr (query ++ py " #" ++ [48 + N.of_nat i]));
          (k_url, VStr (py "https://shop.example/" ++ [48 + N.of_nat i]));
          (k_content, VStr (py "4.5 stars, $199")) ].

Definition search_body (query : pystr) (max_results : Z) : pystr :=
  Json.dumps
    (VDict
       [ (k_results,
          VList (List.map (result query) (seq 0 (Z.to_nat max_results)))) ]).

(** Answers the summary request with padded text and the verdict request
    with [verdict]. *)
Definition up (verdict : pystr) : backends :=
  {| tavily := fun _ query max_results => Body (search_body query max_results);
     openai := fun _ _ _ json_mode =>
                 Some (if json_mode then verdict else py "  a summary ") |}.

(** Finds nothing; the chat backend answers as in [up]. *)
Definition no_results (verdict : pystr) : backends :=
  {| tavily := fun _ _ _ => Body (Json.dumps (VDict [ (k_results, VList []) ]));
     openai := fun _ _ _ json_mode =>
                 Some (if json_mode then verdict else py "  a summary ") |}.

(** One result, given as the response body. *)
Definition one_result (item : value) : backends :=
  {| tavily := fun _ _ _ =>
                 Body (Json.dumps (VDict [ (k_results, VList [item]) ]));
     openai := fun _ _ _ _ => None |}.

Definition down : backends :=
  {| tavily := fun _ _ _ => TransportError;
     openai := fun _ _ _ _ => None |}.

Definition refused : backends :=
  {| tavily := fun _ _ _ => StatusError 503;
     openai := fun _ _ _ _ => None |}.

(** A verdict with a winner only. *)
Definition winner_only : pystr :=
  Json.dumps (VDict [ (k_winner, VStr (py "Pixel 8 Pro")) ]).

(** A complete verdict. *)
Definition full_verdict : pystr :=
  Json.dumps
    (VDict [ (k_winner, VStr (py "Sony XM5"));
             (k_ranking, VList [VStr (py "Sony XM5"); VStr (py "AirPods Max")]);
             (k_reasons, VList [VStr (py "battery life")]) ]).

End Fake.

(** ** Construction of the agents

    The constructors read the process environment; [os.getenv] is a lookup
    that may find nothing. *)

Definition environ := pystr -> option pystr.

(** What a constructor ends in. *)
Inductive constructed (A : Type) :=
| Built (a : A)
| ValueError (message : pystr).
Arguments Built {A} a.
Arguments ValueError {A} message.

Record ScoutAgent := {
  tavily_api_key : pystr;
  base_url : pystr
}.

Record JudgeAgent := {
  api_key : pystr;
  model : pystr
}.

Record ShopSage := {
  sage_scout : ScoutAgent;
  sage_judge : JudgeAgent
}.

(** [ScoutAgent.__init__]: a key that is not set and a key set to the empty
    string are both refused. *)
Definition ScoutAgent_init (env : environ) : constructed ScoutAgent :=
  match env (py "TAVILY_API_KEY") with
  | Some (c :: key) =>
      Built {| tavily_api_key := c :: key;
               base_url := py "https://api.tavily.com" |}
  | Some [] | None =>
      ValueError (py "TAVILY_API_KEY environment variable not set")
  end.

(** [JudgeAgent.__init__]: the model falls back to its default only when
    [OPENAI_MODEL] is not set at all. *)
Definition JudgeAgent_init (env : environ) : constructed JudgeAgent :=
  match env (py "OPENAI_API_KEY") with
  | Some (c :: key) =>
      Built {| api_key := c :: key;
               model := default (py "gpt-4o-mini") (env (py "OPENAI_MODEL")) |}
  | Some [] | None =>
      ValueError (py "OPENAI_API_KEY environment variable not set")
  end.

(** [ShopSage.__init__]: the scout is built first. *)
Definition ShopSage_init (env : environ) : constructed ShopSage :=
  match ScoutAgent_init env with
  | ValueError message => ValueError message
  | Built scout =>
      match JudgeAgent_init env with
      | ValueError message => ValueError message
      | Built judge => Built {| sage_scout := scout; sage_judge := judge |}
      end
  end.

(** ** The module-level functions

    Each builds its agent and calls the method; a constructor that raises
    ends the call before anything is sent. *)

Module Convenience.

Section Functions.

Variable json_loads : pystr -> option value.
Variable json_dumps : value -> pystr.
Variable w : backends.
Variable env : environ.

(** [scout(query, k)] *)
Definition scout (query : pystr) (k : Z)
  : trace -> constructed (outcome (list value)) * trace :=
  fun t =>
    match ScoutAgent_init env with
    | ValueError message => (ValueError message, t)
    | Built agent =>
        let (r, t') := search json_loads w query k t in (Built r, t')
    end.

(** [judge(question, products)] *)
Definition judge (question : pystr) (products : list value)
  : trace -> constructed (outcome value) * trace :=
  fun t =>
    match JudgeAgent_init env with
    | ValueError message => (ValueError message, t)
    | Built agent =>
        let (r, t') :=
          judge_products json_loads json_dumps w question products t in
        (Built r, t')
    end.

(** [run_pipeline(question)] *)
Definition run_pipeline (question : pystr)
  : trace -> constructed (outcome value) * trace :=
  fun t =>
    match ShopSage_init env with
    | ValueError message => (ValueError message, t)
    | Built sage =>
        let (r, t') := run_pipeline json_loads json_dumps w question t in
        (Built r, t')
    end.

End Functions.

End Convenience.

(** [enrich(hits)], its [JudgeAgent()] included. *)
Definition enrich_configured (w : backends) (env : environ)
    (hits : list nat)
  : Store.state -> constructed (outcome (list nat)) * Store.state :=
  fun st =>
    match JudgeAgent_init env with
    | ValueError message => (ValueError message, st)
    | Built agent => let (r, st') := Store.enrich w hits st in (Built r, st')
    end.

(** ** What [search] accepts

    An item of the response goes through the loop of [search] when it is an
    object whose content, if it has one, can be sliced. *)

Definition can_slice (v : value) : bool :=
  match v with
  | VStr _ | VList _ => true
  | _ => false
  end.

Definition item_ok (item : value) : bool :=
  match item with
  | VDict d => can_slice (default (VStr []) (dict_lookup k_content d))
  | _ => false
  end.

(** The hit the loop of [search] makes of an item it accepts. *)
Definition normalize (item : value) : value :=
  match item with
  | VDict d =>
      VDict [ (k_title, default (VStr []) (dict_lookup k_title d));
              (k_url, default (VStr []) (dict_lookup k_url d));
              (k_snippet,
               match default (VStr []) (dict_lookup k_content d) with
               | VStr s => VStr (take 500 s)
               | VList l => VList (take 500 l)
               | other => other
               end) ]
  | other => other
  end.

(** The number of elements of a snippet. *)
Definition snippet_length (v : value) : option nat :=
  match v with
  | VStr s => Some (length s)
  | VList l => Some (length l)
  | _ => None
  end.

(** The summary request the enrichment loop sends for a hit. *)
Definition summary_request (hit : value) : call :=
  Chat extract_system_prompt
    (match py_item hit k_snippet with
     | Returned snippet => snippet
     | Raised _ => VNone
     end) false.

(** ** The pattern after its first group, and a split at a given place *)

Definition vs_rest : regex :=
  Cat (MaxPlus isspace)
 (Cat (In_ ci_v)
 (Cat (In_ ci_s)
 (Cat (MaxOpt (lit 46))
 (Cat (MaxPlus isspace)
 (Cat (Group 2 (MinPlus any_char))
      (Branch (In_ (lit 63)) AtEnd)))))).

(** [vs_split] with the text before span A named. *)
Definition vs_split_at (question pre a b : pystr) : Prop :=
  exists ws1 v s dot ws2 post,
    question = pre ++ a ++ ws1 ++ [v; s] ++ dot ++ ws2 ++ b ++ post
    /\ free_text a /\ white ws1
    /\ ci_v v = true /\ ci_s s = true
    /\ (dot = [] \/ dot = [46])
    /\ white ws2 /\ free_text b /\ terminated post.

(** ** The front end: the pure parts of [streamlit_app.py] *)

Module App.

(** [l[-n:]] for [n > 0] *)
Definition slice_last {A} (n : nat) (l : list A) : list A :=
  drop (length l - n) l.

(** The entries behind the "Recent Searches" buttons, first button first:
    [reversed(search_history[-5:])]. *)
Definition recent_searches (search_history : list value) : list value :=
  rev (slice_last 5 search_history).

(** [search_history.append({"query": question, "result": result})] *)
Definition remember (search_history : list value) (question : pystr)
    (result : value) : list value :=
  search_history
  ++ [VDict [ (k_query, VStr question); (py "result", result) ]].

(** [s.replace(' ', '_')] *)
Definition underscore_spaces (s : pystr) : pystr :=
  List.map (fun c => if c =? 32 then 95 else c) s.

(** The file name of a download: [kind] is [result] or [report], [ext] the
    extension with its dot. *)
Definition file_name (kind ext question : pystr) : pystr :=
  py "shopsage_" ++ kind ++ py "_" ++ underscore_spaces (take 20 question)
  ++ ext.

End App.

(** ** More backends to run on *)

Module Stub.

(** Answers every search with the response [response], encoded, and every
    chat request with [reply]. *)
Definition fixed (response : value) (reply : option pystr) : backends :=
  {| tavily := fun _ _ _ => Body (Json.dumps response);
     openai := fun _ _ _ _ => reply |}.

(** Answers every search with the text [body] as it is. *)
Definition raw (body : pystr) : backends :=
  {| tavily := fun _ _ _ => Body body;
     openai := fun _ _ _ _ => None |}.

Definition good_item : value :=
  VDict [ (k_title, VStr (py "Pixel 8 Pro"));
          (k_url, VStr (py "https://shop.example/p8"));
          (k_content, VStr (py "4.5 stars, $199")) ].

(** An item with nothing but a content that is [null]. *)
Definition null_content : value := VDict [ (k_content, VNone) ].

(** An item without fields. *)
Definition bare_item : value := VDict [].

Definition results (items : list value) : value :=
  VDict [ (k_results, VList items) ].

End Stub.

(** ** The requests and the products of a run *)

(** The search requests [run_pipeline] sends for a question. *)
Definition search_requests (question : pystr) : list call :=
  match sre_search vs_pattern question with
  | Some vs_match =>
      match group 1 vs_match, group 2 vs_match with
      | Some a, Some b => [Search (strip a) 4; Search (strip b) 4]
      | _, _ => []
      end
  | None => [Search question 8]
  end.

(** A product as the enrichment loop builds it: four keys, the summary a
    trimmed string. *)
Definition is_product (product : value) : Prop :=
  exists title url snippet summary,
    product = VDict [ (k_title, title); (k_url, url); (k_snippet, snippet);
                      (k_summary, VStr summary) ]
    /\ strip summary = summary.

(** A variable of the environment counts when it is set and not empty. *)
Definition is_set (x : option pystr) : bool :=
  match x with
  | Some (_ :: _) => true
  | Some [] | None => false
  end.

(** The environment with these three variables and nothing else. *)
Definition env_of (tavily_key openai_key openai_model : option pystr)
  : environ :=
  fun name =>
    if decide (name = py "TAVILY_API_KEY") then tavily_key
    else if decide (name = py "OPENAI_API_KEY") then openai_key
    else if decide (name = py "OPENAI_MODEL") then openai_model
    else None.

(** ** The store while [enrich] runs *)

(** Every hit of the list is an object with a snippet. *)
Definition hits_have_snippets (st : Store.state) (hits : list nat) : Prop :=
  forall l, l ∈ hits ->
            exists d, Store.heap st !! l = Some d
                      /\ is_Some (dict_lookup k_snippet d).

(** The store after the body of the loop of [enrich] has run on [hit], an
    object [d] with the snippet [snippet]. *)
Definition after_summary (w : backends) (st : Store.state) (hit : nat)
    (d : list (pystr * value)) (snippet : value) : Store.state :=
  {| Store.heap :=
       <[hit := dict_set k_summary
                  (VStr (reply_text w (Store.sent st) extract_system_prompt
                           snippet false)) d]> (Store.heap st);
     Store.sent := Store.sent st ++ [Chat extract_system_prompt snippet false]
  |}.

(** Two hits in the store, the second without a snippet, and a third object
    that is no hit. *)
Definition two_hits_one_bare : Store.state :=
  {| Store.heap :=
       {[ 0%nat := [ (k_title, VStr (py "Pixel 8 Pro"));
                     (k_url, VStr (py "https://shop.example/0"));
                     (k_snippet, VStr (py "4.5 stars, $199")) ];
          1%nat := [ (k_title, VStr (py "iPhone 15 Pro")) ];
          2%nat := [ (k_title, VStr (py "Sony XM5"));
                     (k_snippet, VStr (py "30 hours of battery")) ] ]};
     Store.sent := [] |}.

(** * Properties *)

(** ** The matcher finds a match exactly when there is one *)

Lemma min_tail_sound {R} p (k : pystr -> option R) s x :
  min_tail p k s = Some x ->
  exists cs s', s = cs ++ s' /\ forallb p cs = true /\ k s' = Some x.
Proof.
  induction s as [|c s IH]; simpl.
  - destruct (k []) eqn:E; [|discriminate].
    intros [= <-]. by exists [], [].
  - destruct (k (c :: s)) eqn:E.
    + intros [= <-]. by exists [], (c :: s).
    + destruct (p c) eqn:Ep; [|discriminate].
      intros H. destruct (IH H) as (cs & s' & -> & Hcs & Hk).
      exists (c :: cs), s'. simpl. by rewrite Ep, Hcs.
Qed.

Lemma max_tail_sound {R} p (k : pystr -> option R) s x :
  max_tail p k s = Some x ->
  exists cs s', s = cs ++ s' /\ forallb p cs = true /\ k s' = Some x.
Proof.
  induction s as [|c s IH]; simpl.
  - intros H. by exists [], [].
  - destruct (p c) eqn:Ep.
    + destruct (max_tail p k s) eqn:E.
      * intros [= <-]. destruct (IH eq_refl) as (cs & s' & -> & Hcs & Hk).
        exists (c :: cs), s'. simpl. by rewrite Ep, Hcs.
      * intros H. by exists [], (c :: s).
    + intros H. by exists [], (c :: s).
Qed.

Lemma min_tail_complete {R} p (k : pystr -> option R) cs s' x :
  forallb p cs = true -> k s' = Some x ->
  exists y, min_tail p k (cs ++ s') = Some y.
Proof.
  induction cs as [|c cs IH]; simpl; intros Hcs Hk.
  - destruct s'; simpl; rewrite Hk; eauto.
  - apply andb_prop in Hcs as [Hc Hcs].
    destruct (k (c :: cs ++ s')); eauto.
    rewrite Hc. eauto.
Qed.

Lemma max_tail_complete {R} p (k : pystr -> option R) cs s' x :
  forallb p cs = true -> k s' = Some x ->
  exists y, max_tail p k (cs ++ s') = Some y.
Proof.
  induction cs as [|c cs IH]; simpl; intros Hcs Hk.
  - destruct s' as [|c s']; simpl; [eauto|].
    destruct (p c); [destruct (max_tail p k s')|]; eauto.
  - apply andb_prop in Hcs as [Hc Hcs]. rewrite Hc.
    destruct (IH Hcs Hk) as [y ->]. eauto.
Qed.

Lemma sre_match_sound {R} r :
  forall s g (k : pystr -> marks -> option R) x,
    sre_match r s g k = Some x ->
    exists s' g', matches r s g s' g' /\ k s' g' = Some x.
Proof.
  induction r as [p|r1 IH1 r2 IH2|r1 IH1 r2 IH2|p|p|p|n r IH|];
    intros s g k x; simpl.
  - destruct s as [|c s]; [discriminate|].
    destruct (p c) eqn:Ep; [|discriminate].
    intros H. exists s, g. split; [by constructor|done].
  - intros H. apply IH1 in H as (s1 & g1 & H1 & H).
    apply IH2 in H as (s2 & g2 & H2 & H).
    exists s2, g2. split; [by econstructor|done].
  - destruct (sre_match r1 s g k) eqn:E.
    + intros [= <-]. apply IH1 in E as (s' & g' & H1 & H).
      exists s', g'. split; [by apply m_branch_l|done].
    + intros H. apply IH2 in H as (s' & g' & H2 & H).
      exists s', g'. split; [by apply m_branch_r|done].
  - destruct s as [|c s]; [discriminate|].
    destruct (p c) eqn:Ep; [|discriminate].
    intros H. apply min_tail_sound in H as (cs & s' & -> & Hcs & Hk).
    exists s', g. split; [|done]. apply m_min. simpl. by rewrite Ep, Hcs.
  - destruct s as [|c s]; [discriminate|].
    destruct (p c) eqn:Ep; [|discriminate].
    intros H. apply max_tail_sound in H as (cs & s' & -> & Hcs & Hk).
    exists s', g. split; [|done]. apply m_max. simpl. by rewrite Ep, Hcs.
  - destruct s as [|c s].
    + intros H. exists [], g. split; [constructor|done].
    + destruct (p c) eqn:Ep.
      * destruct (k s g) eqn:E.
        -- intros [= <-]. exists s, g. split; [by constructor|done].
        -- intros H. exists (c :: s), g. split; [constructor|done].
      * intros H. exists (c :: s), g. split; [constructor|done].
  - intros H. apply IH in H as (s' & g' & H1 & H).
    eexists s', _. split; [by constructor|done].
  - destruct s as [|c [|c' s]]; [| |discriminate].
    + intros H. exists [], g. split; [constructor|done].
    + destruct (N.eqb_spec c 10) as [->|]; [|discriminate].
      intros H. exists [10], g. split; [constructor|done].
Qed.

Lemma sre_match_complete r s g s' g' :
  matches r s g s' g' ->
  forall R (k : pystr -> marks -> option R) x,
    k s' g' = Some x -> exists y, sre_match r s g k = Some y.
Proof.
  induction 1 as [p c s g Hp|r1 r2 s g s1 g1 s2 g2 _ IH1 _ IH2
                 |r1 r2 s g s' g' _ IH|r1 r2 s g s' g' _ IH
                 |p c cs s g Hp|p c cs s g Hp|p c s g Hp|p s g
                 |n r s g s' g' _ IH|g|g];
    intros R k x Hk; simpl.
  - rewrite Hp. eauto.
  - destruct (IH2 _ k x Hk) as [y Hy]. by eapply IH1.
  - destruct (IH _ k x Hk) as [y ->]. eauto.
  - destruct (sre_match r1 s g k); eauto.
  - simpl in Hp. apply andb_prop in Hp as [-> Hcs].
    by eapply (min_tail_complete p (fun s'' => k s'' g)).
  - simpl in Hp. apply andb_prop in Hp as [-> Hcs].
    by eapply (max_tail_complete p (fun s'' => k s'' g)).
  - rewrite Hp, Hk. eauto.
  - destruct s as [|c s]; [eauto|].
    destruct (p c); [destruct (k s g)|]; eauto.
  - by eapply IH.
  - eauto.
  - eauto.
Qed.

Lemma sre_search_sound r s g :
  sre_search r s = Some g ->
  exists pre s0 s', s = pre ++ s0 /\ matches r s0 [] s' g.
Proof.
  induction s as [|c s IH]; simpl.
  - destruct (sre_match r [] [] _) eqn:E; [|discriminate].
    intros [= <-]. apply sre_match_sound in E as (s' & g' & Hm & [= <-]).
    by exists [], [], s'.
  - destruct (sre_match r (c :: s) [] _) eqn:E.
    + intros [= <-]. apply sre_match_sound in E as (s' & g' & Hm & [= <-]).
      by exists [], (c :: s), s'.
    + intros H. destruct (IH H) as (pre & s0 & s' & -> & Hm).
      by exists (c :: pre), s0, s'.
Qed.

Lemma sre_search_complete r pre s0 s' g :
  matches r s0 [] s' g -> exists g', sre_search r (pre ++ s0) = Some g'.
Proof.
  intros Hm.
  destruct (sre_match_complete _ _ _ _ _ Hm _ (fun _ g => Some g) g eq_refl)
    as [y Hy].
  induction pre as [|c pre IH]; simpl.
  - destruct s0; simpl; rewrite Hy; eauto.
  - destruct (sre_match r (c :: pre ++ s0) [] _); eauto.
Qed.

(** ** A match of [vs_pattern] is an "A vs B" split, and conversely *)

Ltac invert_matches :=
  repeat match goal with
    | H : matches (Cat _ _) _ _ _ _ |- _ => inv H
    | H : matches (Group _ _) _ _ _ _ |- _ => inv H
    | H : matches (In_ _) _ _ _ _ |- _ => inv H
    | H : matches (MinPlus _) _ _ _ _ |- _ => inv H
    | H : matches (MaxPlus _) _ _ _ _ |- _ => inv H
    | H : matches (MaxOpt _) _ _ _ _ |- _ => inv H
    | H : matches (Branch _ _) _ _ _ _ |- _ => inv H
    | H : matches AtEnd _ _ _ _ |- _ => inv H
    end.

Lemma take_consumed {A} (x s : list A) :
  take (length (x ++ s) - length s) (x ++ s) = x.
Proof.
  rewrite length_app.
  replace (length x + length s - length s)%nat with (length x) by lia.
  by rewrite take_app_length.
Qed.

Lemma take_consumed_cons {A} (c : A) (x s : list A) :
  take (length (c :: x ++ s) - length s) (c :: x ++ s) = c :: x.
Proof. apply (take_consumed (c :: x) s). Qed.

Lemma vs_matches_split s0 s' g :
  matches vs_pattern s0 [] s' g ->
  exists a b,
    g = [(2%nat, b); (1%nat, a)] /\ vs_split s0 a b.
Proof.
  unfold vs_pattern. intros H. invert_matches;
    rewrite !take_consumed_cons;
    repeat match goal with
      | H : lit _ _ = true |- _ => apply N.eqb_eq in H; subst
      end;
    (eexists _, _; split; [reflexivity|]);
    match goal with
    | |- vs_split (_ :: _ ++ ?c :: ?w1 ++ ?v :: ?s :: 46 :: ?c' :: ?w2
                   ++ _ :: _ ++ ?post) _ _ =>
        exists [], (c :: w1), v, s, [46], (c' :: w2), post
    | |- vs_split (_ :: _ ++ ?c :: ?w1 ++ ?v :: ?s :: ?c' :: ?w2
                   ++ _ :: _ ++ ?post) _ _ =>
        exists [], (c :: w1), v, s, [], (c' :: w2), post
    end;
    unfold free_text, white, terminated;
    repeat split; eauto; try (simpl; by rewrite <- ?app_assoc).
Qed.

Lemma vs_split_prepend pre q a b :
  vs_split q a b -> vs_split (pre ++ q) a b.
Proof.
  intros (pre0 & ws1 & v & s & dot & ws2 & post & -> & H).
  exists (pre ++ pre0), ws1, v, s, dot, ws2, post.
  split; [by rewrite <- app_assoc | exact H].
Qed.

Lemma vs_split_matches a ws1 v s dot ws2 b post :
  free_text a -> white ws1 -> ci_v v = true -> ci_s s = true ->
  dot = [] \/ dot = [46] -> white ws2 -> free_text b -> terminated post ->
  exists s' g,
    matches vs_pattern (a ++ ws1 ++ [v; s] ++ dot ++ ws2 ++ b ++ post) [] s' g.
Proof.
  intros [Ha Ha'] [H1 H1'] Hv Hs Hdot [H2 H2'] [Hb Hb'] Hpost.
  destruct a as [|ca a]; [done|]. destruct ws1 as [|c1 ws1]; [done|].
  destruct ws2 as [|c2 ws2]; [done|]. destruct b as [|cb b]; [done|].
  assert (exists s',
    forall g, matches (Branch (In_ (lit 63)) AtEnd) post g s' g) as (s' & Hend).
  { destruct Hpost as [->|[->|[rest ->]]].
    - exists []. intros g. apply m_branch_r. constructor.
    - exists [10]. intros g. apply m_branch_r. constructor.
    - exists rest. intros g. apply m_branch_l. by constructor. }
  exists s'. unfold vs_pattern.
  destruct Hdot as [->| ->]; eexists; simpl;
    (eapply m_cat; [apply m_group, m_min, Ha'|]);
    (eapply m_cat; [apply m_max, H1'|]);
    (eapply m_cat; [apply m_in, Hv|]);
    (eapply m_cat; [apply m_in, Hs|]);
    (eapply m_cat; [first [by apply m_opt_some | apply m_opt_none]|]);
    (eapply m_cat; [apply m_max, H2'|]);
    (eapply m_cat; [apply m_group, m_min, Hb'|]); apply Hend.
Qed.

(** [re.search] succeeds on exactly the questions of the shape, and the two
    groups of its match are the spans of one split of the question. *)
Lemma vs_search_spec q :
  match sre_search vs_pattern q with
  | Some g => exists a b, g = [(2%nat, b); (1%nat, a)] /\ vs_split q a b
  | None => ~ vs_shape q
  end.
Proof.
  destruct (sre_search vs_pattern q) as [g|] eqn:E.
  - apply sre_search_sound in E as (pre & s0 & s' & -> & Hm).
    apply vs_matches_split in Hm as (a & b & -> & Hs).
    exists a, b. split; [done|]. by apply vs_split_prepend.
  - intros (a & b & pre & ws1 & v & s & dot & ws2 & post & -> & Ha & H1 & Hv
            & Hs & Hdot & H2 & Hb & Hpost).
    destruct (vs_split_matches a ws1 v s dot ws2 b post) as (s' & g & Hm);
      try done.
    destruct (sre_search_complete _ pre _ _ _ Hm) as [g' Hg'].
    assert (Some g' = None) as [=].
    etrans; [symmetry; exact Hg' | exact E].
Qed.



Corollary no_shape_of_no_match q :
  sre_search vs_pattern q = None -> ~ vs_shape q.
Proof. intros E. pose proof (vs_search_spec q) as H. by rewrite E in H. Qed.

(** The match on some questions. With several "vs" the first one splits the
    question; the token is found in any case and with its period; a final
    line break is not part of span B; the long s stands for an s. *)

Example vs_first_occurrence :
  sre_search vs_pattern (py "A vs B vs C")
  = Some [(2%nat, py "B vs C"); (1%nat, py "A")].
Proof. by vm_compute. Qed.

Example vs_upper_case_period_question_mark :
  sre_search vs_pattern (py "Which is better: A VS. B? Thanks")
  = Some [(2%nat, py "B"); (1%nat, py "Which is better: A")].
Proof. by vm_compute. Qed.

Example vs_final_line_break :
  sre_search vs_pattern (py "A vs B" ++ nl)
  = Some [(2%nat, py "B"); (1%nat, py "A")].
Proof. by vm_compute. Qed.

Example vs_long_s :
  sre_search vs_pattern (py "A v" ++ [383] ++ py " B")
  = Some [(2%nat, py "B"); (1%nat, py "A")].
Proof. by vm_compute. Qed.

Example vs_needs_white_space :
  sre_search vs_pattern (py "canvas vs.print") = None.
Proof. by vm_compute. Qed.

(** ** The agents never leave the shape they promise *)

Section PipelineFacts.

Variable json_loads : pystr -> option value.
Variable json_dumps : value -> pystr.
Variable w : backends.


Lemma search_loop_hits items :
  forall results res,
    search_loop items results = Returned res ->
    Forall is_hit results -> Forall is_hit res.
Proof.
  induction items as [|item items IH]; simpl; intros results res.
  - by intros [= <-].
  - destruct (py_get item k_title _) as [title|]; [|discriminate].
    destruct (py_get item k_url _) as [url|]; [|discriminate].
    destruct (py_get item k_content _) as [content|]; [|discriminate].
    destruct (py_slice_to content 500) as [snippet|]; [|discriminate].
    intros H Hres. apply (IH _ _ H).
    apply Forall_app. split; [done|]. constructor; [|done].
    by exists title, url, snippet.
Qed.

(** [ScoutAgent.search] returns, whatever the backend does, after exactly
    one request. *)
Lemma search_returns query max_results t :
  exists hits,
    search json_loads w query max_results t
    = (Returned hits, t ++ [Search query max_results])
    /\ Forall is_hit hits.
Proof.
  unfold search, try_except, bind, post_search, lift, ret, loads.
  destruct (tavily w t query max_results) as [|code|text]; simpl;
    try (exists []; split; [reflexivity|constructor]).
  destruct (json_loads text) as [data|]; simpl;
    try (exists []; split; [reflexivity|constructor]).
  destruct (py_get data k_results _) as [rs|]; simpl;
    try (exists []; split; [reflexivity|constructor]).
  destruct (py_iter rs) as [items|]; simpl;
    try (exists []; split; [reflexivity|constructor]).
  destruct (search_loop items []) as [hits|] eqn:E; simpl;
    try (exists []; split; [reflexivity|constructor]).
  exists hits. split; [reflexivity|].
  by apply (search_loop_hits _ _ _ E).
Qed.

Lemma call_openai_returns system_prompt user_prompt json_mode t :
  _call_openai w system_prompt user_prompt json_mode t
  = (Returned (reply_text w t system_prompt user_prompt json_mode),
     t ++ [Chat system_prompt user_prompt json_mode]).
Proof.
  unfold _call_openai, reply_text.
  by destruct (openai w t system_prompt user_prompt json_mode).
Qed.

(** [judge_products] returns after exactly one request: the decoded text,
    or the fallback when the text does not decode. *)
Lemma judge_products_returns question products t :
  judge_products json_loads json_dumps w question products t
  = (Returned
       (default fallback_verdict
          (json_loads
             (reply_text w t judge_system_prompt
                (VStr (judge_user_prompt json_dumps question products))
                true))),
     t ++ [judge_call json_dumps question products]).
Proof.
  unfold judge_products, bind. rewrite call_openai_returns.
  unfold try_except, lift, loads, ret, judge_call.
  by destruct (json_loads _).
Qed.

(** On hits of [search] the enrichment loop returns, one product per hit
    and in their order, after one summary request per hit. *)
Lemma enrich_loop_returns hits :
  Forall is_hit hits ->
  forall acc t,
    exists products chats,
      enrich_loop w hits acc t = (Returned (acc ++ products), t ++ chats)
      /\ Forall2 enriched_of hits products
      /\ Forall is_extract_chat chats
      /\ length chats = length hits.
Proof.
  induction 1 as [|hit hits (title & url & snippet & ->) _ IH];
    intros acc t.
  - exists [], []. simpl. unfold ret. rewrite !app_nil_r.
    repeat split; constructor.
  - destruct (IH (acc ++ [VDict [ (k_title, title); (k_url, url);
                                  (k_snippet, snippet);
                                  (k_summary,
                                   VStr (reply_text w t extract_system_prompt
                                           snippet false)) ]])
                (t ++ [Chat extract_system_prompt snippet false]))
      as (products & chats & Hrun & Hprod & Hchats & Hlen).
    eexists (_ :: products), (_ :: chats).
    split; [|split; [|split]].
    + cbn [enrich_loop]. unfold bind at 1.
      change (lift (py_item _ k_snippet) t) with (Returned snippet, t).
      cbn iota beta. unfold bind at 1, extract_product_info.
      rewrite call_openai_returns. cbn iota beta.
      unfold bind at 1.
      change (lift (py_item _ k_title) ?x) with (Returned title, x).
      cbn iota beta. unfold bind at 1.
      change (lift (py_item _ k_url) ?x) with (Returned url, x).
      cbn iota beta. unfold bind at 1.
      change (lift (py_item _ k_snippet) ?x) with (Returned snippet, x).
      cbn iota beta. rewrite Hrun. by rewrite <- !app_assoc.
    + constructor; [|done]. by eexists title, url, snippet, _.
    + constructor; [|done]. by exists snippet.
    + simpl. by rewrite Hlen.
Qed.

Lemma run_pipeline_steps question :
  run_pipeline json_loads json_dumps w question
  = (hits <- find_hits json_loads w question ;;
     enrich_and_judge json_loads json_dumps w question hits).
Proof. reflexivity. Qed.

Lemma calls_of_app {A} (m : M trace A) t calls :
  snd (m t) = t ++ calls -> calls_of m t = calls.
Proof. unfold calls_of. intros ->. by rewrite drop_app_length. Qed.

Lemma extract_chats_other chats :
  Forall is_extract_chat chats -> searches chats = [] /\ judgings chats = [].
Proof.
  unfold searches, judgings.
  induction 1 as [|c chats [snippet ->] _ [IH1 IH2]]; [done|].
  simpl. by rewrite IH1, IH2.
Qed.

(** With a match of the pattern: one search per span, four results each. *)
Lemma find_hits_vs question a b t :
  sre_search vs_pattern question = Some [(2%nat, b); (1%nat, a)] ->
  exists hits_a hits_b,
    search json_loads w (strip a) 4 t
    = (Returned hits_a, t ++ [Search (strip a) 4])
    /\ search json_loads w (strip b) 4 (t ++ [Search (strip a) 4])
       = (Returned hits_b, t ++ [Search (strip a) 4; Search (strip b) 4])
    /\ find_hits json_loads w question t
       = (Returned (hits_a ++ hits_b),
          t ++ [Search (strip a) 4; Search (strip b) 4])
    /\ Forall is_hit (hits_a ++ hits_b).
Proof.
  intros E.
  destruct (search_returns (strip a) 4 t) as (hits_a & Ha & Hia).
  destruct (search_returns (strip b) 4 (t ++ [Search (strip a) 4]))
    as (hits_b & Hb & Hib).
  rewrite <- app_assoc in Hb. simpl in Hb.
  exists hits_a, hits_b. repeat split; try done.
  - unfold find_hits. rewrite E. simpl. unfold bind, lift. simpl.
    by rewrite Ha, Hb.
  - by apply Forall_app.
Qed.

(** Without a match: one search on the question, with the default count. *)
Lemma find_hits_plain question t :
  sre_search vs_pattern question = None ->
  find_hits json_loads w question t = search json_loads w question 8 t.
Proof. unfold find_hits. by intros ->. Qed.

Lemma find_hits_returns question t :
  exists hits calls,
    find_hits json_loads w question t = (Returned hits, t ++ calls)
    /\ Forall is_hit hits /\ judgings calls = [].
Proof.
  pose proof (vs_search_spec question) as H.
  destruct (sre_search vs_pattern question) as [g|] eqn:E.
  - destruct H as (a & b & -> & _).
    destruct (find_hits_vs question a b t E) as (ha & hb & _ & _ & H & Hh).
    by exists (ha ++ hb), [Search (strip a) 4; Search (strip b) 4].
  - rewrite (find_hits_plain _ _ E).
    destruct (search_returns question 8 t) as (hits & Hs & Hh).
    by exists hits, [Search question 8].
Qed.

(** After the search step: one product per hit, one verdict request over
    all of them, and the result assembled from the verdict. *)
Lemma enrich_and_judge_runs question hits t :
  Forall is_hit hits ->
  exists products chats,
    Forall2 enriched_of hits products
    /\ Forall is_extract_chat chats
    /\ length chats = length hits
    /\ enrich_loop w hits [] t = (Returned products, t ++ chats)
    /\ enrich_and_judge json_loads json_dumps w question hits t
       = (assemble question
            (default fallback_verdict
               (json_loads
                  (reply_text w (t ++ chats) judge_system_prompt
                     (VStr (judge_user_prompt json_dumps question products))
                     true)))
            products,
          t ++ chats ++ [judge_call json_dumps question products]).
Proof.
  intros Hh.
  destruct (enrich_loop_returns hits Hh [] t)
    as (products & chats & Hrun & Hprod & Hchats & Hlen).
  simpl in Hrun. exists products, chats. repeat split; try done.
  unfold enrich_and_judge, bind. rewrite Hrun.
  rewrite judge_products_returns. unfold lift.
  by rewrite <- app_assoc.
Qed.


Lemma run_pipeline_plain question t :
  sre_search vs_pattern question = None ->
  exists hits,
    searches (calls_of (run_pipeline json_loads json_dumps w question) t)
    = [Search question 8]
    /\ search json_loads w question 8 t
       = (Returned hits, t ++ [Search question 8])
    /\ run_pipeline json_loads json_dumps w question t
       = enrich_and_judge json_loads json_dumps w question hits
           (t ++ [Search question 8]).
Proof.
  intros E.
  destruct (search_returns question 8 t) as (hits & Hs & Hh).
  exists hits.
  assert (run_pipeline json_loads json_dumps w question t
          = enrich_and_judge json_loads json_dumps w question hits
              (t ++ [Search question 8])) as Hrun.
  { rewrite run_pipeline_steps. unfold bind at 1.
    by rewrite (find_hits_plain _ _ E), Hs. }
  repeat split; try done.
  destruct (enrich_and_judge_runs question hits (t ++ [Search question 8]) Hh)
    as (products & chats & _ & Hchats & _ & _ & Hej).
  rewrite (calls_of_app _ t
             ([Search question 8] ++ chats
              ++ [judge_call json_dumps question products])).
  - unfold searches. rewrite !List.filter_app.
    destruct (extract_chats_other chats Hchats) as [Hs' _].
    unfold searches in Hs'. by rewrite Hs'.
  - rewrite Hrun, Hej. simpl. by rewrite <- app_assoc.
Qed.

Lemma assemble_dict question d products :
  assemble question (VDict d) products
  = Returned
      (VDict [ (k_query, VStr question);
               (k_winner, default (VStr []) (dict_lookup k_winner d));
               (k_ranking, default (VList []) (dict_lookup k_ranking d));
               (k_reasons, default (VList []) (dict_lookup k_reasons d));
               (k_sources, VList (take 4 products)) ]).
Proof. reflexivity. Qed.

Lemma assemble_returned question verdict products r :
  assemble question verdict products = Returned r ->
  exists d, verdict = VDict d.
Proof. destruct verdict; try discriminate. eauto. Qed.

(** A whole run: the searches, one summary request per hit, one verdict
    request, and the result assembled from the verdict. *)
Lemma run_pipeline_runs question t :
  exists hits calls products chats,
    find_hits json_loads w question t = (Returned hits, t ++ calls)
    /\ judgings calls = []
    /\ enrich_loop w hits [] (t ++ calls)
       = (Returned products, (t ++ calls) ++ chats)
    /\ Forall2 enriched_of hits products
    /\ Forall is_extract_chat chats
    /\ run_pipeline json_loads json_dumps w question t
       = (assemble question
            (default fallback_verdict
               (json_loads
                  (reply_text w ((t ++ calls) ++ chats) judge_system_prompt
                     (VStr (judge_user_prompt json_dumps question products))
                     true)))
            products,
          (t ++ calls) ++ chats ++ [judge_call json_dumps question products]).
Proof.
  destruct (find_hits_returns question t) as (hits & calls & Hf & Hh & Hj).
  destruct (enrich_and_judge_runs question hits (t ++ calls) Hh)
    as (products & chats & Hprod & Hchats & _ & Hloop & Hej).
  exists hits, calls, products, chats. repeat split; try done.
  rewrite run_pipeline_steps. unfold bind at 1. by rewrite Hf.
Qed.

End PipelineFacts.

(** ** The search step *)


(** C2. For every question that is not of the "A vs B" shape [run_pipeline]
    sends exactly one search request, for the whole question, asking for 8
    results. *)
Theorem plain_question_searches_once :
  forall json_loads json_dumps w question t,
    ~ vs_shape question ->
    searches (calls_of (run_pipeline json_loads json_dumps w question) t)
    = [Search question 8].
Proof.
  intros json_loads json_dumps w question t Hshape.
  pose proof (vs_search_spec question) as H.
  destruct (sre_search vs_pattern question) as [g|] eqn:E.
  - destruct H as (a & b & _ & Hsplit). destruct Hshape. by exists a, b.
  - by destruct (run_pipeline_plain json_loads json_dumps w question t E)
      as (hits & Hs & _).
Qed.


Lemma plain_question_searches_once_witness :
  ~ vs_shape (py "best headphones under $500")
  /\ searches
       (calls_of
          (run_pipeline Json.loads Json.dumps (Fake.up Fake.full_verdict)
             (py "best headphones under $500")) [])
     = [Search (py "best headphones under $500") 8].
Proof.
  assert (~ vs_shape (py "best headphones under $500")) as Hshape.
  { apply no_shape_of_no_match. vm_compute. reflexivity. }
  split; [exact Hshape|].
  exact (plain_question_searches_once Json.loads Json.dumps
           (Fake.up Fake.full_verdict) (py "best headphones under $500") []
           Hshape).
Defined.

(** ** The result of a run *)

(** C3. Whenever [run_pipeline] returns a result, its [sources] are the first
    four enriched products of the run in their order: at most four entries,
    and exactly the first four when the run enriched more than four. *)
Theorem sources_capped_at_four :
  forall json_loads json_dumps w question t result t',
    run_pipeline json_loads json_dumps w question t = (Returned result, t') ->
    exists hits t1 enriched_products t2 sources,
      find_hits json_loads w question t = (Returned hits, t1)
      /\ enrich_loop w hits [] t1 = (Returned enriched_products, t2)
      /\ py_item result k_sources = Returned (VList sources)
      /\ (length sources <= 4)%nat
      /\ sources = take 4 enriched_products
      /\ ((4 < length enriched_products)%nat ->
          length sources = 4%nat
          /\ forall i, (i < 4)%nat -> sources !! i = enriched_products !! i).
Proof.
  intros json_loads json_dumps w question t result t' Hrun.
  destruct (run_pipeline_runs json_loads json_dumps w question t)
    as (hits & calls & products & chats & Hf & _ & Hloop & _ & _ & Hrun').
  rewrite Hrun in Hrun'. injection Hrun' as Hres _. symmetry in Hres.
  destruct (assemble_returned _ _ _ _ Hres) as [d Hd].
  rewrite Hd, assemble_dict in Hres. injection Hres as <-.
  exists hits, (t ++ calls), products, ((t ++ calls) ++ chats),
    (take 4 products).
  repeat split; try done.
  - rewrite length_take. lia.
  - rewrite length_take. lia.
  - intros i Hi. by apply lookup_take_lt.
Qed.

Lemma sources_capped_at_four_witness :
  exists result t' sources,
    run_pipeline Json.loads Json.dumps (Fake.up Fake.full_verdict)
      (py "best headphones under $500") [] = (Returned result, t')
    /\ py_item result k_sources = Returned (VList sources)
    /\ length sources = 4%nat.
Proof.
  assert (exists result t',
             run_pipeline Json.loads Json.dumps (Fake.up Fake.full_verdict)
               (py "best headphones under $500") [] = (Returned result, t'))
    as (result & t' & Hrun) by (eexists _, _; vm_compute; reflexivity).
  destruct (sources_capped_at_four _ _ _ _ _ _ _ Hrun)
    as (hits & t1 & products & t2 & sources & Hf & Hloop & Hsrc & _ & _
        & Hmore).
  exists result, t', sources.
  split; [exact Hrun|]. split; [exact Hsrc|].
  apply Hmore.
  vm_compute in Hf. injection Hf as <- <-.
  vm_compute in Hloop. injection Hloop as <- _.
  vm_compute. lia.
Defined.

(** ** Judging *)



(** [_call_openai] strips the content before [judge_products] decodes it:
    white space around the verdict that JSON itself does not allow, here a
    no-break space, never reaches the decoder. *)
Example padded_verdict_is_decoded :
  Json.loads ([160] ++ py "{}") = None
  /\ judge_products Json.loads Json.dumps (Fake.up ([160] ++ py "{}"))
       (py "best headphones under $500") [] []
     = (Returned (VDict []),
        [judge_call Json.dumps (py "best headphones under $500") []]).
Proof. split; by vm_compute. Qed.

(** C10. When the verdict text decodes to a JSON object, the result takes
    [winner], [ranking] and [reasons] from it, and for each of these keys the
    object lacks it carries the empty string, the empty list and the empty
    list: the fallback verdict is not used. *)
Theorem missing_verdict_keys_default :
  forall json_loads json_dumps w question t hits t1 enriched_products t2 d,
    find_hits json_loads w question t = (Returned hits, t1) ->
    enrich_loop w hits [] t1 = (Returned enriched_products, t2) ->
    json_loads
      (reply_text w t2 judge_system_prompt
         (VStr (judge_user_prompt json_dumps question enriched_products)) true)
    = Some (VDict d) ->
    run_pipeline json_loads json_dumps w question t
    = (Returned
         (VDict [ (k_query, VStr question);
                  (k_winner, match dict_lookup k_winner d with
                             | Some winner => winner
                             | None => VStr []
                             end);
                  (k_ranking, match dict_lookup k_ranking d with
                              | Some ranking => ranking
                              | None => VList []
                              end);
                  (k_reasons, match dict_lookup k_reasons d with
                              | Some reasons => reasons
                              | None => VList []
                              end);
                  (k_sources, VList (take 4 enriched_products)) ]),
       t2 ++ [judge_call json_dumps question enriched_products]).
Proof.
  intros json_loads json_dumps w question t hits t1 products t2 d
    Hf Hloop Hd.
  rewrite run_pipeline_steps. unfold bind at 1. rewrite Hf.
  unfold enrich_and_judge, bind. rewrite Hloop.
  rewrite judge_products_returns, Hd. unfold lift. simpl default.
  by rewrite assemble_dict.
Qed.

Lemma missing_verdict_keys_default_witness :
  run_pipeline Json.loads Json.dumps (Fake.no_results Fake.winner_only)
    (py "iPhone 15 Pro vs Pixel 8 Pro") []
  = (Returned
       (VDict [ (k_query, VStr (py "iPhone 15 Pro vs Pixel 8 Pro"));
                (k_winner, VStr (py "Pixel 8 Pro"));
                (k_ranking, VList []);
                (k_reasons, VList []);
                (k_sources, VList []) ]),
     [ Search (py "iPhone 15 Pro") 4; Search (py "Pixel 8 Pro") 4;
       judge_call Json.dumps (py "iPhone 15 Pro vs Pixel 8 Pro") [] ]).
Proof.
  apply (missing_verdict_keys_default Json.loads Json.dumps
           (Fake.no_results Fake.winner_only)
           (py "iPhone 15 Pro vs Pixel 8 Pro") [] []
           [Search (py "iPhone 15 Pro") 4; Search (py "Pixel 8 Pro") 4] []
           [Search (py "iPhone 15 Pro") 4; Search (py "Pixel 8 Pro") 4]
           [(k_winner, VStr (py "Pixel 8 Pro"))]).
  - by vm_compute.
  - reflexivity.
  - by vm_compute.
Defined.

(** ** Failures *)

(** C7. When the search request fails in transport or comes back with a
    status that [raise_for_status] rejects, [ScoutAgent.search] returns the
    empty list and raises nothing. *)
Theorem failed_search_returns_nothing :
  forall json_loads w query max_results t,
    tavily w t query max_results = TransportError
    \/ (exists code, tavily w t query max_results = StatusError code) ->
    search json_loads w query max_results t
    = (Returned [], t ++ [Search query max_results]).
Proof.
  intros json_loads w query max_results t H.
  unfold search, try_except, bind, post_search.
  by destruct H as [-> | [code ->]].
Qed.

Lemma failed_search_returns_nothing_witness :
  search Json.loads Fake.down (py "Pixel 8 Pro") 4 []
  = (Returned [], [Search (py "Pixel 8 Pro") 4])
  /\ search Json.loads Fake.refused (py "Pixel 8 Pro") 4 []
     = (Returned [], [Search (py "Pixel 8 Pro") 4]).
Proof.
  split.
  - apply (failed_search_returns_nothing Json.loads Fake.down). by left.
  - apply (failed_search_returns_nothing Json.loads Fake.refused).
    right. by exists 503%Z.
Defined.

(** What [run_pipeline] does return on: a verdict text that does not decode,
    or decodes to an object. The result then has the five keys. *)
Lemma run_pipeline_returns_on_objects json_loads json_dumps w question t :
  (forall text v, json_loads text = Some v -> exists d, v = VDict d) ->
  exists result t',
    run_pipeline json_loads json_dumps w question t = (Returned result, t')
    /\ exists winner ranking reasons sources,
        result = VDict [ (k_query, VStr question); (k_winner, winner);
                         (k_ranking, ranking); (k_reasons, reasons);
                         (k_sources, VList sources) ].
Proof.
  intros Hobj.
  destruct (run_pipeline_runs json_loads json_dumps w question t)
    as (hits & calls & products & chats & _ & _ & _ & _ & _ & Hrun).
  rewrite Hrun.
  destruct (json_loads _) as [v|] eqn:E.
  - destruct (Hobj _ _ E) as [d ->]. simpl default. rewrite assemble_dict.
    by eexists _, _; split; [reflexivity|]; eexists _, _, _, _.
  - simpl default. unfold fallback_verdict. rewrite assemble_dict.
    by eexists _, _; split; [reflexivity|]; eexists _, _, _, _.
Qed.

(** A verdict text that decodes to anything but an object makes
    [run_pipeline] raise [AttributeError] at [verdict.get]. *)
Lemma run_pipeline_raises_on_other_json json_loads json_dumps w question t :
  exists enriched_products t2,
    forall v,
      json_loads
        (reply_text w t2 judge_system_prompt
           (VStr (judge_user_prompt json_dumps question enriched_products))
           true) = Some v ->
      (forall d, v <> VDict d) ->
      run_pipeline json_loads json_dumps w question t
      = (Raised AttributeError,
         t2 ++ [judge_call json_dumps question enriched_products]).
Proof.
  destruct (run_pipeline_runs json_loads json_dumps w question t)
    as (hits & calls & products & chats & _ & _ & _ & _ & _ & Hrun).
  exists products, ((t ++ calls) ++ chats). intros v Hv Hnot.
  rewrite Hrun, Hv, app_assoc. simpl default.
  destruct v as [| | | | |d]; try reflexivity. by destruct (Hnot d).
Qed.

(** C5. The judge backend answers the verdict request with the text [[]],
    which is JSON but not an object: [run_pipeline] raises [AttributeError]
    to its caller instead of returning a result. *)
Theorem list_verdict_raises :
  Json.loads (py "[]") = Some (VList [])
  /\ fst (run_pipeline Json.loads Json.dumps (Fake.up (py "[]"))
            (py "best headphones under $500") [])
     = Raised AttributeError.
Proof. split; by vm_compute. Qed.

(** C8. When the search step comes back without hits, the enrichment loop
    makes no product and sends nothing, [judge_products] is called once, on
    the empty list, and the result is assembled from its verdict. *)
Theorem no_hits_still_judged :
  forall json_loads json_dumps w question t t1,
    find_hits json_loads w question t = (Returned [], t1) ->
    enrich_loop w [] [] t1 = (Returned [], t1)
    /\ judgings (calls_of (run_pipeline json_loads json_dumps w question) t)
       = [judge_call json_dumps question []]
    /\ exists verdict,
        judge_products json_loads json_dumps w question [] t1
        = (Returned verdict, t1 ++ [judge_call json_dumps question []])
        /\ run_pipeline json_loads json_dumps w question t
           = (assemble question verdict [],
              t1 ++ [judge_call json_dumps question []]).
Proof.
  intros json_loads json_dumps w question t t1 Hf.
  split; [reflexivity|].
  assert (run_pipeline json_loads json_dumps w question t
          = (assemble question
               (default fallback_verdict
                  (json_loads
                     (reply_text w t1 judge_system_prompt
                        (VStr (judge_user_prompt json_dumps question []))
                        true))) [],
             t1 ++ [judge_call json_dumps question []])) as Hrun.
  { rewrite run_pipeline_steps. unfold bind at 1. rewrite Hf.
    unfold enrich_and_judge, bind. simpl enrich_loop. unfold ret at 1.
    by rewrite judge_products_returns. }
  split.
  - destruct (find_hits_returns json_loads w question t)
      as (hits & calls & Hf' & _ & Hj).
    rewrite Hf in Hf'. injection Hf' as _ ->.
    rewrite (calls_of_app _ t (calls ++ [judge_call json_dumps question []])).
    + unfold judgings in *. by rewrite List.filter_app, Hj.
    + rewrite Hrun. simpl. by rewrite <- app_assoc.
  - eexists. split; [apply judge_products_returns|exact Hrun].
Qed.

Lemma no_hits_still_judged_witness :
  find_hits Json.loads Fake.down (py "best headphones under $500") []
  = (Returned [], [Search (py "best headphones under $500") 8])
  /\ judgings
       (calls_of
          (run_pipeline Json.loads Json.dumps Fake.down
             (py "best headphones under $500")) [])
     = [judge_call Json.dumps (py "best headphones under $500") []].
Proof.
  assert (find_hits Json.loads Fake.down (py "best headphones under $500") []
          = (Returned [], [Search (py "best headphones under $500") 8]))
    as Hf by (by vm_compute).
  split; [exact Hf|].
  exact (proj1 (proj2 (no_hits_still_judged Json.loads Json.dumps Fake.down
                         (py "best headphones under $500") [] _ Hf))).
Defined.

(** ** Normalizing the search response *)

Lemma search_loop_normalized items :
  forall results res,
    search_loop items results = Returned res ->
    exists hits, res = results ++ hits /\ Forall2 normalized items hits.
Proof.
  induction items as [|item items IH]; simpl; intros results res.
  - intros [= <-]. exists []. by rewrite app_nil_r.
  - destruct item as [| | | | |d]; try discriminate. simpl.
    destruct (py_slice_to _ 500) as [snippet|] eqn:Hs; [|discriminate].
    intros H. destruct (IH _ _ H) as (hits & -> & Hn).
    eexists (_ :: hits). split; [by rewrite <- app_assoc|].
    constructor; [|done]. by exists d, snippet.
Qed.

(** What [search] returns when it returns hits: the items of the response,
    each normalized. *)
Lemma search_hits_normalized json_loads w query max_results t hits t' :
  search json_loads w query max_results t = (Returned hits, t') ->
  hits <> [] ->
  exists text data items,
    tavily w t query max_results = Body text
    /\ json_loads text = Some (VDict data)
    /\ py_iter (default (VList []) (dict_lookup k_results data))
       = Returned items
    /\ Forall2 normalized items hits.
Proof.
  unfold search, try_except, bind, post_search, lift, ret, loads.
  destruct (tavily w t query max_results) as [|code|text] eqn:Hb; simpl;
    try (by intros [= <- _] []).
  destruct (json_loads text) as [data|] eqn:Hd; simpl;
    try (by intros [= <- _] []).
  destruct data as [| | | | |data]; simpl; try (by intros [= <- _] []).
  destruct (py_iter _) as [items|] eqn:Hi; simpl;
    try (by intros [= <- _] []).
  destruct (search_loop items []) as [res|] eqn:Hl; simpl;
    try (by intros [= <- _] []).
  intros [= <- _] _.
  destruct (search_loop_normalized _ _ _ Hl) as (hs & -> & Hn).
  by exists text, data, items.
Qed.

(** C6. The snippet of every hit [search] returns is the [content] of the
    response item it comes from, cut to its first 500 characters: for content
    longer than 500 characters the snippet is exactly these 500. *)
Theorem snippet_is_content_clipped :
  forall json_loads w query max_results t hits t' i hit,
    search json_loads w query max_results t = (Returned hits, t') ->
    hits !! i = Some hit ->
    exists text data items d,
      tavily w t query max_results = Body text
      /\ json_loads text = Some (VDict data)
      /\ py_iter (default (VList []) (dict_lookup k_results data))
         = Returned items
      /\ items !! i = Some (VDict d)
      /\ py_item hit k_snippet
         = py_slice_to (default (VStr []) (dict_lookup k_content d)) 500
      /\ forall content,
          dict_lookup k_content d = Some (VStr content) ->
          py_item hit k_snippet = Returned (VStr (take 500 content))
          /\ ((500 < length content)%nat ->
              length (take 500 content) = 500%nat).
Proof.
  intros json_loads w query max_results t hits t' i hit Hs Hi.
  destruct (search_hits_normalized _ _ _ _ _ _ _ Hs)
    as (text & data & items & Hb & Hd & Hit & Hn).
  { intros ->. by rewrite lookup_nil in Hi. }
  destruct (Forall2_lookup_r _ _ _ _ _ Hn Hi)
    as (item & Hitem & d & snippet & -> & Hslice & ->).
  exists text, data, items, d.
  split; [done|]. split; [done|]. split; [done|]. split; [done|].
  split; [by rewrite Hslice|].
  intros content Hc. rewrite Hc in Hslice. simpl in Hslice.
  injection Hslice as <-. split; [reflexivity|].
  intros Hlen. rewrite length_take. lia.
Qed.

Lemma snippet_is_content_clipped_witness :
  exists hits t' hit,
    search Json.loads
      (Fake.one_result (VDict [ (k_content, VStr (repeat 97 501)) ]))
      (py "Pixel 8 Pro") 4 [] = (Returned hits, t')
    /\ hits !! 0%nat = Some hit
    /\ py_item hit k_snippet = Returned (VStr (repeat 97 500)).
Proof.
  assert (exists hits t',
             search Json.loads
               (Fake.one_result (VDict [ (k_content, VStr (repeat 97 501)) ]))
               (py "Pixel 8 Pro") 4 [] = (Returned hits, t')
             /\ exists hit, hits !! 0%nat = Some hit)
    as (hits & t' & Hs & hit & Hi)
    by (eexists _, _; split; [by vm_compute|]; by eexists).
  exists hits, t', hit. split; [done|]. split; [done|].
  destruct (snippet_is_content_clipped _ _ _ _ _ _ _ _ _ Hs Hi)
    as (text & data & items & d & Hb & Hd & Hit & Hitem & _ & Hclip).
  injection Hb as <-. vm_compute in Hd. injection Hd as <-.
  vm_compute in Hit. injection Hit as <-.
  injection Hitem as <-.
  by destruct (Hclip (repeat 97 501) eq_refl) as [-> _].
Defined.

(** ** Enrichment and the hits *)


Lemma dict_lookup_set_ne k k' v d :
  k <> k' -> dict_lookup k (dict_set k' v d) = dict_lookup k d.
Proof.
  intros Hne. induction d as [|[k0 v0] d IH]; simpl.
  - by rewrite decide_False.
  - destruct (decide (k0 = k')) as [->|Hne']; simpl.
    + by rewrite !decide_False.
    + by rewrite IH.
Qed.

Lemma dict_set_set k v v' d :
  dict_set k v' (dict_set k v d) = dict_set k v' d.
Proof.
  induction d as [|[k0 v0] d IH]; simpl.
  - by rewrite decide_True.
  - destruct (decide (k0 = k)) as [->|Hne]; simpl.
    + by rewrite decide_True.
    + by rewrite decide_False, IH.
Qed.

Section StoreFacts.

Variable w : backends.

Lemma snippet_is_not_summary : k_snippet <> k_summary.
Proof. by vm_compute. Qed.

(** [enrich] returns on hits that have a snippet; it leaves every other
    object alone and sets the summary of each hit, the last one winning
    when a hit is listed twice. *)
Lemma enrich_each_spec hits :
  forall st,
    (forall l, l ∈ hits ->
               exists d, Store.heap st !! l = Some d
                         /\ is_Some (dict_lookup k_snippet d)) ->
    exists st',
      Store.enrich_each w hits st = (Returned tt, st')
      /\ (forall l, l ∉ hits -> Store.heap st' !! l = Store.heap st !! l)
      /\ (forall l d,
             l ∈ hits -> Store.heap st !! l = Some d ->
             exists summary,
               Store.heap st' !! l
               = Some (dict_set k_summary (VStr summary) d)).
Proof.
  induction hits as [|hit rest IH]; intros st Hpre.
  - exists st. split; [reflexivity|]. split; [done|].
    intros l d Hin. by apply elem_of_nil in Hin.
  - destruct (Hpre hit) as (d & Hd & [sn Hsn]); [by left|].
    set (s := reply_text w (Store.sent st) extract_system_prompt sn false).
    set (st1 := {| Store.heap :=
                     <[hit := dict_set k_summary (VStr s) d]> (Store.heap st);
                   Store.sent :=
                     Store.sent st ++ [Chat extract_system_prompt sn false] |}).
    destruct (IH st1) as (st' & Hrun & Hframe & Hset).
    { intros l Hl. destruct (decide (l = hit)) as [->|Hne].
      - exists (dict_set k_summary (VStr s) d). simpl.
        rewrite lookup_insert_eq. split; [done|].
        rewrite dict_lookup_set_ne; [by eauto|apply snippet_is_not_summary].
      - destruct (Hpre l) as (d' & Hd' & Hs'); [by right|].
        exists d'. simpl. by rewrite lookup_insert_ne. }
    exists st'. split; [|split].
    + cbn [Store.enrich_each]. unfold bind at 1, Store.getitem.
      rewrite Hd. simpl py_item. rewrite Hsn.
      unfold bind at 1, Store.extract, extract_product_info.
      rewrite call_openai_returns.
      unfold bind at 1, Store.setitem. simpl Store.heap. rewrite Hd.
      exact Hrun.
    + intros l Hl. apply not_elem_of_cons in Hl as [Hne Hl].
      rewrite (Hframe l Hl). simpl. by rewrite lookup_insert_ne.
    + intros l d0 Hl Hd0. destruct (decide (l ∈ rest)) as [Hin|Hnin].
      * destruct (decide (l = hit)) as [->|Hne].
        -- assert (d0 = d) as -> by congruence.
           destruct (Hset hit (dict_set k_summary (VStr s) d) Hin)
             as [s' Hs'].
           { simpl. by rewrite lookup_insert_eq. }
           exists s'. by rewrite Hs', dict_set_set.
        -- apply (Hset l d0 Hin). simpl. by rewrite lookup_insert_ne.
      * apply elem_of_cons in Hl as [->|Hl]; [|done].
        assert (d0 = d) as -> by congruence.
        exists s. rewrite (Hframe hit Hnin). simpl.
        by rewrite lookup_insert_eq.
Qed.


End StoreFacts.




(** * Further properties of the code *)

(** ** [ScoutAgent.search] on the responses it can get *)

Lemma search_loop_all_ok items :
  forall results,
    forallb item_ok items = true ->
    search_loop items results
    = Returned (results ++ List.map normalize items).
Proof.
  induction items as [|item items IH]; intros results Hok; simpl.
  - by rewrite app_nil_r.
  - simpl in Hok. apply andb_prop in Hok as [Hitem Hok].
    destruct item as [| | | | |d]; try discriminate. simpl in *.
    destruct (default (VStr []) (dict_lookup k_content d)) as [| | |c|l|];
      try discriminate; simpl; rewrite (IH _ Hok);
      by rewrite <- app_assoc.
Qed.

Lemma search_loop_some_bad items :
  forall results,
    forallb item_ok items = false ->
    exists e, search_loop items results = Raised e.
Proof.
  induction items as [|item items IH]; intros results Hbad; simpl.
  - discriminate.
  - simpl in Hbad.
    destruct item as [| | | | |d]; simpl; eauto. simpl in Hbad.
    destruct (default (VStr []) (dict_lookup k_content d)) as [| | |c|l|];
      simpl in *; eauto.
Qed.

(** X1. When the response is an object whose [results] is a list of objects
    with a content that can be sliced (or none), [search] returns one hit per
    item, in order: title and url as given or the empty string, the snippet
    the content cut at 500. It returns all of them, however many
    [max_results] asked for. *)
Theorem search_keeps_every_result :
  forall json_loads w query max_results t text data items,
    tavily w t query max_results = Body text ->
    json_loads text = Some (VDict data) ->
    dict_lookup k_results data = Some (VList items) ->
    forallb item_ok items = true ->
    search json_loads w query max_results t
    = (Returned (List.map normalize items), t ++ [Search query max_results])
    /\ length (List.map normalize items) = length items.
Proof.
  intros json_loads w query max_results t text data items Hb Hd Hr Hok.
  split; [|by rewrite length_map].
  unfold search, try_except, bind, post_search, lift, ret, loads.
  rewrite Hb, Hd. simpl. rewrite Hr. simpl.
  by rewrite (search_loop_all_ok _ [] Hok).
Qed.

Lemma search_keeps_every_result_witness :
  search Json.loads
    (Stub.fixed
       (Stub.results [Stub.good_item; Stub.bare_item; Stub.good_item]) None)
    (py "Pixel 8 Pro") 2 []
  = (Returned
       [ VDict [ (k_title, VStr (py "Pixel 8 Pro"));
                 (k_url, VStr (py "https://shop.example/p8"));
                 (k_snippet, VStr (py "4.5 stars, $199")) ];
         VDict [ (k_title, VStr []); (k_url, VStr []); (k_snippet, VStr []) ];
         VDict [ (k_title, VStr (py "Pixel 8 Pro"));
                 (k_url, VStr (py "https://shop.example/p8"));
                 (k_snippet, VStr (py "4.5 stars, $199")) ] ],
     [Search (py "Pixel 8 Pro") 2]).
Proof.
  apply (proj1 (search_keeps_every_result Json.loads
                  (Stub.fixed
                     (Stub.results
                        [Stub.good_item; Stub.bare_item; Stub.good_item])
                     None)
                  (py "Pixel 8 Pro") 2 []
                  (Json.dumps
                     (Stub.results
                        [Stub.good_item; Stub.bare_item; Stub.good_item]))
                  [ (k_results,
                     VList [Stub.good_item; Stub.bare_item; Stub.good_item]) ]
                  [Stub.good_item; Stub.bare_item; Stub.good_item]
                  eq_refl ltac:(by vm_compute) eq_refl eq_refl)).
Defined.

(** X2. One item of the response that is not an object, or whose content is
    neither a string nor a list, costs every hit: [search] returns the empty
    list although the other items are in order. *)
Theorem one_bad_item_drops_all :
  forall json_loads w query max_results t text data items,
    tavily w t query max_results = Body text ->
    json_loads text = Some (VDict data) ->
    dict_lookup k_results data = Some (VList items) ->
    forallb item_ok items = false ->
    search json_loads w query max_results t
    = (Returned [], t ++ [Search query max_results]).
Proof.
  intros json_loads w query max_results t text data items Hb Hd Hr Hbad.
  unfold search, try_except, bind, post_search, lift, ret, loads.
  rewrite Hb, Hd. simpl. rewrite Hr. simpl.
  by destruct (search_loop_some_bad _ [] Hbad) as [e ->].
Qed.

Lemma one_bad_item_drops_all_witness :
  search Json.loads
    (Stub.fixed
       (Stub.results [Stub.good_item; Stub.null_content; Stub.good_item]) None)
    (py "Pixel 8 Pro") 4 []
  = (Returned [], [Search (py "Pixel 8 Pro") 4]).
Proof.
  apply (one_bad_item_drops_all Json.loads
           (Stub.fixed
              (Stub.results
                 [Stub.good_item; Stub.null_content; Stub.good_item])
              None)
           (py "Pixel 8 Pro") 4 []
           (Json.dumps
              (Stub.results
                 [Stub.good_item; Stub.null_content; Stub.good_item]))
           [ (k_results,
              VList [Stub.good_item; Stub.null_content; Stub.good_item]) ]
           [Stub.good_item; Stub.null_content; Stub.good_item]
           eq_refl ltac:(by vm_compute) eq_refl eq_refl).
Defined.

(** X3. Every hit [search] returns is a dict with exactly the keys [title],
    [url] and [snippet], in this order, and its snippet is a string or a list
    of at most 500 elements. *)
Theorem hits_have_three_keys_and_a_bounded_snippet :
  forall json_loads w query max_results t hits t',
    search json_loads w query max_results t = (Returned hits, t') ->
    Forall (fun hit =>
              exists title url snippet n,
                hit = VDict [ (k_title, title); (k_url, url);
                              (k_snippet, snippet) ]
                /\ snippet_length snippet = Some n
                /\ (n <= 500)%nat) hits.
Proof.
  intros json_loads w query max_results t hits t' Hs.
  destruct hits as [|hit hits]; [constructor|].
  destruct (search_hits_normalized _ _ _ _ _ _ _ Hs)
    as (text & data & items & _ & _ & _ & Hn); [done|].
  clear Hs.
  induction Hn as [|item h items hs (d & snippet & -> & Hsl & ->) _ IH];
    constructor; [|exact IH].
  destruct (default (VStr []) (dict_lookup k_content d)) as [| | |c|l|];
    try discriminate; simpl in Hsl; injection Hsl as <-.
  - eexists _, _, _, (length (take 500 c)).
    split; [reflexivity|]. split; [reflexivity|]. rewrite length_take. lia.
  - eexists _, _, _, (length (take 500 l)).
    split; [reflexivity|]. split; [reflexivity|]. rewrite length_take. lia.
Qed.

Lemma hits_have_three_keys_and_a_bounded_snippet_witness :
  exists hits t',
    search Json.loads
      (Fake.one_result (VDict [ (k_content, VStr (repeat 97 501)) ]))
      (py "Pixel 8 Pro") 4 [] = (Returned hits, t')
    /\ length hits = 1%nat
    /\ Forall (fun hit =>
                 exists title url snippet n,
                   hit = VDict [ (k_title, title); (k_url, url);
                                 (k_snippet, snippet) ]
                   /\ snippet_length snippet = Some n
                   /\ (n <= 500)%nat) hits.
Proof.
  assert (exists hits t',
             search Json.loads
               (Fake.one_result (VDict [ (k_content, VStr (repeat 97 501)) ]))
               (py "Pixel 8 Pro") 4 [] = (Returned hits, t')
             /\ length hits = 1%nat)
    as (hits & t' & Hs & Hlen)
    by (eexists _, _; split; [by vm_compute|reflexivity]).
  exists hits, t'. split; [exact Hs|]. split; [exact Hlen|].
  exact (hits_have_three_keys_and_a_bounded_snippet _ _ _ _ _ _ _ Hs).
Defined.

(** X4. [search] sends exactly one request and never raises, whatever the
    backend answers. A body that is not JSON, JSON that is not an object, an
    object without [results], and [results] that cannot be iterated all give
    the empty list. *)
Theorem search_always_returns :
  forall json_loads w query max_results t,
    exists hits,
      search json_loads w query max_results t
      = (Returned hits, t ++ [Search query max_results])
      /\ forall text,
          tavily w t query max_results = Body text ->
          json_loads text = None
          \/ (exists v, json_loads text = Some v /\ forall d, v <> VDict d)
          \/ (exists d, json_loads text = Some (VDict d)
                        /\ dict_lookup k_results d = None)
          \/ (exists d r, json_loads text = Some (VDict d)
                          /\ dict_lookup k_results d = Some r
                          /\ py_iter r = Raised TypeError) ->
          hits = [].
Proof.
  intros json_loads w query max_results t.
  destruct (search_returns json_loads w query max_results t)
    as (hits & Hs & _).
  exists hits. split; [exact Hs|].
  intros text Hb Hcase. revert Hs.
  unfold search, try_except, bind, post_search, lift, ret, loads.
  rewrite Hb.
  destruct Hcase as [->|[(v & -> & Hv)|[(d & -> & Hr)|(d & r & -> & Hr & Hi)]]];
    simpl.
  - by intros [= <-].
  - destruct v as [| | | | |d]; simpl; try (by intros [= <-]).
    by destruct (Hv d).
  - rewrite Hr. simpl. by intros [= <-].
  - rewrite Hr. simpl. rewrite Hi. by intros [= <-].
Qed.

Lemma search_always_returns_witness :
  search Json.loads (Stub.raw (py "<html>Bad Gateway</html>"))
    (py "Pixel 8 Pro") 4 []
  = (Returned [], [Search (py "Pixel 8 Pro") 4])
  /\ search Json.loads (Stub.raw (py "[1, 2]")) (py "Pixel 8 Pro") 4 []
     = (Returned [], [Search (py "Pixel 8 Pro") 4])
  /\ search Json.loads (Stub.raw (py "{}")) (py "Pixel 8 Pro") 4 []
     = (Returned [], [Search (py "Pixel 8 Pro") 4]).
Proof.
  split; [|split].
  - destruct (search_always_returns Json.loads
                (Stub.raw (py "<html>Bad Gateway</html>"))
                (py "Pixel 8 Pro") 4 []) as (hits & -> & H).
    rewrite (H _ eq_refl); [reflexivity|]. left. by vm_compute.
  - destruct (search_always_returns Json.loads (Stub.raw (py "[1, 2]"))
                (py "Pixel 8 Pro") 4 []) as (hits & -> & H).
    rewrite (H _ eq_refl); [reflexivity|]. right. left.
    eexists. split; [by vm_compute|]. done.
  - destruct (search_always_returns Json.loads (Stub.raw (py "{}"))
                (py "Pixel 8 Pro") 4 []) as (hits & -> & H).
    rewrite (H _ eq_refl); [reflexivity|]. right. right. left.
    eexists. split; [by vm_compute|]. reflexivity.
Defined.

(** ** [JudgeAgent._call_openai] hands back trimmed text *)

Lemma lstrip_head s c r : lstrip s = c :: r -> isspace c = false.
Proof.
  induction s as [|x s IH]; simpl; [discriminate|].
  destruct (isspace x) eqn:Ex; [exact IH|]. by intros [= <- _].
Qed.

Lemma lstrip_fixed s :
  (forall c r, s = c :: r -> isspace c = false) -> lstrip s = s.
Proof.
  destruct s as [|c r]; [done|]. intros H. simpl.
  by rewrite (H c r eq_refl).
Qed.

Lemma lstrip_all_space s : forallb isspace s = true -> lstrip s = [].
Proof.
  induction s as [|c s IH]; simpl; [done|].
  intros H. apply andb_prop in H as [-> H]. auto.
Qed.

Lemma lstrip_snoc z c :
  isspace c = false -> exists y, lstrip (z ++ [c]) = y ++ [c].
Proof.
  intros Hc. induction z as [|x z [y IH]]; simpl.
  - rewrite Hc. by exists [].
  - destruct (isspace x); [by exists y|]. by exists (x :: z).
Qed.

Lemma strip_head s c r : strip s = c :: r -> isspace c = false.
Proof.
  unfold strip, rstrip. destruct (lstrip s) as [|x l] eqn:E.
  - discriminate.
  - pose proof (lstrip_head _ _ _ E) as Hx. simpl.
    destruct (lstrip_snoc (rev l) x Hx) as [y ->].
    rewrite rev_app_distr. simpl. by intros [= <- _].
Qed.

Lemma strip_last s c r : strip s = r ++ [c] -> isspace c = false.
Proof.
  unfold strip, rstrip. intros H.
  apply (f_equal (@rev _)) in H. rewrite rev_involutive, rev_app_distr in H.
  simpl in H. by apply lstrip_head in H.
Qed.

Lemma strip_fixed s :
  (forall c r, s = c :: r -> isspace c = false) ->
  (forall c r, s = r ++ [c] -> isspace c = false) ->
  strip s = s.
Proof.
  intros Hh Hl. unfold strip, rstrip. rewrite (lstrip_fixed s Hh).
  rewrite lstrip_fixed; [apply rev_involutive|].
  intros c r Hr. apply (Hl c (rev r)).
  rewrite <- (rev_involutive s), Hr. reflexivity.
Qed.

Lemma strip_idempotent s : strip (strip s) = strip s.
Proof.
  apply strip_fixed; intros c r H.
  - by apply (strip_head s c r).
  - by apply (strip_last s c r).
Qed.

(** X5. [_call_openai] sends one request and never raises. The text it
    hands back neither starts nor ends with white space (stripping it again
    changes nothing), and it is empty when the call fails and when the
    backend's content is white space only. *)
Theorem call_openai_hands_back_trimmed_text :
  forall w system_prompt user_prompt json_mode t,
    exists text,
      _call_openai w system_prompt user_prompt json_mode t
      = (Returned text, t ++ [Chat system_prompt user_prompt json_mode])
      /\ strip text = text
      /\ (forall c r, text = c :: r -> isspace c = false)
      /\ (forall c r, text = r ++ [c] -> isspace c = false)
      /\ (openai w t system_prompt user_prompt json_mode = None -> text = [])
      /\ (forall content,
             openai w t system_prompt user_prompt json_mode = Some content ->
             forallb isspace content = true -> text = []).
Proof.
  intros w system_prompt user_prompt json_mode t.
  unfold _call_openai.
  destruct (openai w t system_prompt user_prompt json_mode) as [content|].
  - exists (strip content). split; [reflexivity|].
    split; [apply strip_idempotent|].
    split; [apply strip_head|]. split; [apply strip_last|].
    split; [discriminate|].
    intros ? [= <-] Hws. unfold strip. by rewrite (lstrip_all_space _ Hws).
  - exists []. split; [reflexivity|]. split; [reflexivity|].
    split; [discriminate|]. split; [|done].
    intros c r H. by destruct r.
Qed.

Lemma call_openai_hands_back_trimmed_text_witness :
  forallb isspace (py "  " ++ nl) = true
  /\ _call_openai (Stub.fixed VNone (Some (py "  " ++ nl)))
       extract_system_prompt (VStr (py "4.5 stars, $199")) false []
     = (Returned [],
        [Chat extract_system_prompt (VStr (py "4.5 stars, $199")) false]).
Proof.
  split; [reflexivity|].
  destruct (call_openai_hands_back_trimmed_text
              (Stub.fixed VNone (Some (py "  " ++ nl)))
              extract_system_prompt (VStr (py "4.5 stars, $199")) false [])
    as (text & H & _ & _ & _ & _ & Hws).
  rewrite H. by rewrite (Hws (py "  " ++ nl) eq_refl eq_refl).
Defined.

(** ** A run of the pipeline, request by request *)

Section RunFacts.

Variable json_loads : pystr -> option value.
Variable json_dumps : value -> pystr.
Variable w : backends.

Lemma enrich_loop_requests hits :
  Forall is_hit hits ->
  forall acc t,
    exists products,
      enrich_loop w hits acc t
      = (Returned (acc ++ products), t ++ List.map summary_request hits)
      /\ Forall2 enriched_of hits products
      /\ Forall is_product products.
Proof.
  induction 1 as [|hit hits (title & url & snippet & ->) _ IH]; intros acc t.
  - exists []. simpl. unfold ret. rewrite !app_nil_r.
    repeat split; constructor.
  - set (summary := reply_text w t extract_system_prompt snippet false).
    destruct (IH (acc ++ [VDict [ (k_title, title); (k_url, url);
                                  (k_snippet, snippet);
                                  (k_summary, VStr summary) ]])
                (t ++ [Chat extract_system_prompt snippet false]))
      as (products & Hrun & Hprod & Hshape).
    eexists (_ :: products). split; [|split].
    + cbn [enrich_loop]. unfold bind at 1.
      change (lift (py_item _ k_snippet) t) with (Returned snippet, t).
      cbn iota beta. unfold bind at 1, extract_product_info.
      rewrite call_openai_returns. cbn iota beta.
      unfold bind at 1.
      change (lift (py_item _ k_title) ?x) with (Returned title, x).
      cbn iota beta. unfold bind at 1.
      change (lift (py_item _ k_url) ?x) with (Returned url, x).
      cbn iota beta. unfold bind at 1.
      change (lift (py_item _ k_snippet) ?x) with (Returned snippet, x).
      cbn iota beta. fold summary. rewrite Hrun.
      cbn [List.map].
      change (summary_request (VDict _))
        with (Chat extract_system_prompt snippet false).
      by rewrite <- !app_assoc.
    + constructor; [|done]. by exists title, url, snippet, summary.
    + constructor; [|done]. exists title, url, snippet, summary.
      split; [done|]. unfold summary, reply_text.
      destruct (openai _ _ _ _ _); [apply strip_idempotent|reflexivity].
Qed.

Lemma find_hits_requests question t :
  exists hits,
    find_hits json_loads w question t
    = (Returned hits, t ++ search_requests question)
    /\ Forall is_hit hits.
Proof.
  unfold search_requests.
  pose proof (vs_search_spec question) as H.
  destruct (sre_search vs_pattern question) as [g|] eqn:E.
  - destruct H as (a & b & -> & _).
    destruct (find_hits_vs json_loads w question a b t E)
      as (ha & hb & _ & _ & H & Hh).
    by exists (ha ++ hb).
  - rewrite (find_hits_plain _ _ _ _ E).
    destruct (search_returns json_loads w question 8 t) as (hits & Hs & Hh).
    by exists hits.
Qed.

(** The whole of a run. *)
Lemma run_pipeline_in_full question t :
  exists hits products,
    find_hits json_loads w question t
    = (Returned hits, t ++ search_requests question)
    /\ Forall is_hit hits
    /\ Forall2 enriched_of hits products
    /\ Forall is_product products
    /\ run_pipeline json_loads json_dumps w question t
       = (assemble question
            (default fallback_verdict
               (json_loads
                  (reply_text w
                     (t ++ search_requests question
                      ++ List.map summary_request hits)
                     judge_system_prompt
                     (VStr (judge_user_prompt json_dumps question products))
                     true)))
            products,
          t ++ search_requests question ++ List.map summary_request hits
          ++ [judge_call json_dumps question products]).
Proof.
  destruct (find_hits_requests question t) as (hits & Hf & Hh).
  destruct (enrich_loop_requests hits Hh [] (t ++ search_requests question))
    as (products & Hloop & Hprod & Hshape).
  simpl in Hloop. exists hits, products. repeat split; try done.
  rewrite run_pipeline_steps. unfold bind at 1. rewrite Hf.
  unfold enrich_and_judge, bind. rewrite Hloop.
  rewrite judge_products_returns. unfold lift.
  by rewrite <- !app_assoc.
Qed.

End RunFacts.

(** X6. A run sends its requests in this order: the one or two searches,
    then one summary request per hit, in the order of the hits and with the
    snippet of the hit as the user message, then exactly one verdict request,
    built from all the enriched products and not only from the four kept as
    sources. Nothing is sent after the verdict request. *)
Theorem run_sends_searches_summaries_then_one_verdict :
  forall json_loads json_dumps w question t,
    exists hits products,
      find_hits json_loads w question t
      = (Returned hits, t ++ search_requests question)
      /\ Forall2 enriched_of hits products
      /\ calls_of (run_pipeline json_loads json_dumps w question) t
         = search_requests question ++ List.map summary_request hits
           ++ [judge_call json_dumps question products]
      /\ length (calls_of (run_pipeline json_loads json_dumps w question) t)
         = (length (search_requests question) + length hits + 1)%nat
      /\ (length (search_requests question) = 1%nat
          \/ length (search_requests question) = 2%nat).
Proof.
  intros json_loads json_dumps w question t.
  destruct (run_pipeline_in_full json_loads json_dumps w question t)
    as (hits & products & Hf & _ & Hprod & _ & Hrun).
  exists hits, products.
  assert (calls_of (run_pipeline json_loads json_dumps w question) t
          = search_requests question ++ List.map summary_request hits
            ++ [judge_call json_dumps question products]) as Hcalls.
  { apply calls_of_app. by rewrite Hrun. }
  split; [done|]. split; [done|]. split; [done|]. split.
  - rewrite Hcalls, !length_app, length_map. simpl. lia.
  - unfold search_requests.
    pose proof (vs_search_spec question) as H.
    destruct (sre_search vs_pattern question) as [g|]; [|by left].
    destruct H as (a & b & -> & _). by right.
Qed.


(** X8. Whenever [run_pipeline] returns, the result is a dict with exactly
    the keys [query], [winner], [ranking], [reasons], [sources], in this
    order; [query] is the question as it was asked; [sources] holds at most
    four dicts, each with exactly the keys [title], [url], [snippet],
    [summary], the summary a string without surrounding white space. *)
Theorem result_has_five_keys_and_trimmed_sources :
  forall json_loads json_dumps w question t result t',
    run_pipeline json_loads json_dumps w question t = (Returned result, t') ->
    exists winner ranking reasons sources,
      result = VDict [ (k_query, VStr question); (k_winner, winner);
                       (k_ranking, ranking); (k_reasons, reasons);
                       (k_sources, VList sources) ]
      /\ (length sources <= 4)%nat
      /\ Forall is_product sources.
Proof.
  intros json_loads json_dumps w question t result t' Hrun.
  destruct (run_pipeline_in_full json_loads json_dumps w question t)
    as (hits & products & _ & _ & _ & Hshape & Hrun').
  rewrite Hrun in Hrun'. injection Hrun' as Hres _. symmetry in Hres.
  destruct (assemble_returned _ _ _ _ Hres) as [d Hd].
  rewrite Hd, assemble_dict in Hres. injection Hres as <-.
  eexists _, _, _, (take 4 products). split; [reflexivity|]. split.
  - rewrite length_take. lia.
  - by apply Forall_take.
Qed.

Lemma result_has_five_keys_and_trimmed_sources_witness :
  exists result t' sources,
    run_pipeline Json.loads Json.dumps (Fake.up Fake.winner_only)
      (py "Sony XM5 vs Apple AirPods Max") [] = (Returned result, t')
    /\ py_item result k_sources = Returned (VList sources)
    /\ Forall is_product sources.
Proof.
  assert (exists result t',
             run_pipeline Json.loads Json.dumps (Fake.up Fake.winner_only)
               (py "Sony XM5 vs Apple AirPods Max") []
             = (Returned result, t'))
    as (result & t' & Hrun) by (eexists _, _; vm_compute; reflexivity).
  destruct (result_has_five_keys_and_trimmed_sources _ _ _ _ _ _ _ Hrun)
    as (winner & ranking & reasons & sources & -> & _ & Hshape).
  eexists _, t', sources. split; [exact Hrun|]. split; [reflexivity|].
  exact Hshape.
Defined.

(** X9. With both backends down (every search fails, every chat call fails)
    and a decoder that rejects the empty text, [run_pipeline] still returns,
    for every question: the question, the fallback winner, no ranking, the
    parse-error reason and no sources, after its searches and one verdict
    request over no products. *)
Theorem run_with_backends_down :
  forall json_loads json_dumps w question t,
    (forall t' query k text, tavily w t' query k <> Body text) ->
    (forall t' system_prompt user json_mode,
        openai w t' system_prompt user json_mode = None) ->
    json_loads [] = None ->
    run_pipeline json_loads json_dumps w question t
    = (Returned
         (VDict [ (k_query, VStr question);
                  (k_winner, VStr (py "Unable to determine"));
                  (k_ranking, VList []);
                  (k_reasons,
                   VList [VStr (py "Error parsing recommendation")]);
                  (k_sources, VList []) ]),
       t ++ search_requests question ++ [judge_call json_dumps question []]).
Proof.
  intros json_loads json_dumps w question t Hdown Hnone Hempty.
  assert (forall query k t0,
             search json_loads w query k t0
             = (Returned [], t0 ++ [Search query k])) as Hsearch.
  { intros query k t0. unfold search, try_except, bind, post_search.
    destruct (tavily w t0 query k) as [|code|text] eqn:E; try reflexivity.
    by destruct (Hdown t0 query k text). }
  assert (find_hits json_loads w question t
          = (Returned [], t ++ search_requests question)) as Hf.
  { unfold search_requests.
    pose proof (vs_search_spec question) as H.
    destruct (sre_search vs_pattern question) as [g|] eqn:E.
    - destruct H as (a & b & -> & _).
      unfold find_hits. rewrite E. simpl. unfold bind, lift. simpl.
      rewrite !Hsearch. by rewrite <- app_assoc.
    - rewrite (find_hits_plain _ _ _ _ E). apply Hsearch. }
  rewrite run_pipeline_steps. unfold bind at 1. rewrite Hf.
  unfold enrich_and_judge, bind. simpl enrich_loop. unfold ret at 1.
  rewrite judge_products_returns. unfold reply_text. rewrite Hnone, Hempty.
  simpl default. unfold lift, fallback_verdict. rewrite assemble_dict.
  simpl. by rewrite <- app_assoc.
Qed.

Lemma run_with_backends_down_witness :
  run_pipeline Json.loads Json.dumps Fake.down
    (py "iPhone 15 Pro vs Pixel 8 Pro") []
  = (Returned
       (VDict [ (k_query, VStr (py "iPhone 15 Pro vs Pixel 8 Pro"));
                (k_winner, VStr (py "Unable to determine"));
                (k_ranking, VList []);
                (k_reasons,
                 VList [VStr (py "Error parsing recommendation")]);
                (k_sources, VList []) ]),
     [ Search (py "iPhone 15 Pro") 4; Search (py "Pixel 8 Pro") 4;
       judge_call Json.dumps (py "iPhone 15 Pro vs Pixel 8 Pro") [] ]).
Proof.
  apply (run_with_backends_down Json.loads Json.dumps Fake.down
           (py "iPhone 15 Pro vs Pixel 8 Pro") []).
  - intros t' query k text. discriminate.
  - reflexivity.
  - reflexivity.
Defined.

(** ** Which split [re.search] takes *)

Lemma min_tail_first {R} p (k : pystr -> option R) s x :
  min_tail p k s = Some x ->
  exists cs s',
    s = cs ++ s' /\ forallb p cs = true /\ k s' = Some x
    /\ forall cs' s'',
        s = cs' ++ s'' -> (length cs' < length cs)%nat -> k s'' = None.
Proof.
  induction s as [|c s IH]; simpl.
  - destruct (k []) eqn:E; [|discriminate].
    intros [= <-]. exists [], []. repeat split; try done.
    intros cs' s'' _ Hlen. simpl in Hlen. lia.
  - destruct (k (c :: s)) eqn:E.
    + intros [= <-]. exists [], (c :: s). repeat split; try done.
      intros cs' s'' _ Hlen. simpl in Hlen. lia.
    + destruct (p c) eqn:Ep; [|discriminate].
      intros H. destruct (IH H) as (cs & s' & -> & Hcs & Hk & Hfirst).
      exists (c :: cs), s'. simpl. rewrite Ep, Hcs.
      repeat split; try done.
      intros cs' s'' Heq Hlen. destruct cs' as [|c' cs'].
      * simpl in Heq. by subst.
      * simpl in Heq, Hlen. injection Heq as -> Heq.
        apply (Hfirst cs' s'' Heq). lia.
Qed.

Lemma sre_search_first r s g :
  sre_search r s = Some g ->
  exists pre s0,
    s = pre ++ s0
    /\ sre_match r s0 [] (fun _ g => Some g) = Some g
    /\ forall pre' s0',
        s = pre' ++ s0' -> (length pre' < length pre)%nat ->
        sre_match r s0' [] (fun _ g => Some g) = None.
Proof.
  induction s as [|c s IH]; simpl.
  - destruct (sre_match r [] [] _) eqn:E; [|discriminate].
    intros [= <-]. exists [], []. repeat split; try done.
    intros pre' s0' _ Hlen. simpl in Hlen. lia.
  - destruct (sre_match r (c :: s) [] _) eqn:E.
    + intros [= <-]. exists [], (c :: s). repeat split; try done.
      intros pre' s0' _ Hlen. simpl in Hlen. lia.
    + intros H. destruct (IH H) as (pre & s0 & -> & Hm & Hfirst).
      exists (c :: pre), s0. repeat split; try done.
      intros pre' s0' Heq Hlen. destruct pre' as [|c' pre'].
      * simpl in Heq. by subst.
      * simpl in Heq, Hlen. injection Heq as -> Heq.
        apply (Hfirst pre' s0' Heq). lia.
Qed.

Lemma vs_pattern_unfold {R} c s1 (k : pystr -> marks -> option R) :
  sre_match vs_pattern (c :: s1) [] k
  = if any_char c then
      min_tail any_char
        (fun s'' =>
           sre_match vs_rest s''
             [(1%nat, take (length (c :: s1) - length s'') (c :: s1))] k)
        s1
    else None.
Proof. reflexivity. Qed.

Lemma vs_rest_marks s g0 s' g' :
  matches vs_rest s g0 s' g' -> exists b, g' = (2%nat, b) :: g0.
Proof. unfold vs_rest. intros H. invert_matches; eauto. Qed.

Lemma vs_rest_matches ws1 v s dot ws2 b post g0 :
  white ws1 -> ci_v v = true -> ci_s s = true ->
  dot = [] \/ dot = [46] -> white ws2 -> free_text b -> terminated post ->
  exists s' g',
    matches vs_rest (ws1 ++ [v; s] ++ dot ++ ws2 ++ b ++ post) g0 s' g'.
Proof.
  intros [H1 H1'] Hv Hs Hdot [H2 H2'] [Hb Hb'] Hpost.
  destruct ws1 as [|c1 ws1]; [done|].
  destruct ws2 as [|c2 ws2]; [done|]. destruct b as [|cb b]; [done|].
  assert (exists s',
    forall g, matches (Branch (In_ (lit 63)) AtEnd) post g s' g) as (s' & Hend).
  { destruct Hpost as [->|[->|[rest ->]]].
    - exists []. intros g. apply m_branch_r. constructor.
    - exists [10]. intros g. apply m_branch_r. constructor.
    - exists rest. intros g. apply m_branch_l. by constructor. }
  exists s'. unfold vs_rest.
  destruct Hdot as [->| ->]; eexists; simpl;
    (eapply m_cat; [apply m_max, H1'|]);
    (eapply m_cat; [apply m_in, Hv|]);
    (eapply m_cat; [apply m_in, Hs|]);
    (eapply m_cat; [first [by apply m_opt_some | apply m_opt_none]|]);
    (eapply m_cat; [apply m_max, H2'|]);
    (eapply m_cat; [apply m_group, m_min, Hb'|]); apply Hend.
Qed.

Lemma vs_matches_split_at s0 s' g :
  matches vs_pattern s0 [] s' g ->
  exists a b,
    g = [(2%nat, b); (1%nat, a)] /\ vs_split_at s0 [] a b.
Proof.
  unfold vs_pattern. intros H. invert_matches;
    rewrite !take_consumed_cons;
    repeat match goal with
      | H : lit _ _ = true |- _ => apply N.eqb_eq in H; subst
      end;
    (eexists _, _; split; [reflexivity|]);
    match goal with
    | |- vs_split_at (_ :: _ ++ ?c :: ?w1 ++ ?v :: ?s :: 46 :: ?c' :: ?w2
                      ++ _ :: _ ++ ?post) _ _ _ =>
        exists (c :: w1), v, s, [46], (c' :: w2), post
    | |- vs_split_at (_ :: _ ++ ?c :: ?w1 ++ ?v :: ?s :: ?c' :: ?w2
                      ++ _ :: _ ++ ?post) _ _ _ =>
        exists (c :: w1), v, s, [], (c' :: w2), post
    end;
    unfold free_text, white, terminated;
    repeat split; eauto; try (simpl; by rewrite <- ?app_assoc).
Qed.

(** X10. Of all the ways to split a question as "A vs B", [run_pipeline]
    takes the one whose span A starts first, and of those the one with the
    shortest span A: with several "vs" the first one separates the
    products. *)
Theorem first_vs_separates :
  forall question a b,
    sre_search vs_pattern question = Some [(2%nat, b); (1%nat, a)] ->
    exists pre,
      vs_split_at question pre a b
      /\ forall pre' a' b',
          vs_split_at question pre' a' b' ->
          (length pre < length pre')%nat
          \/ (length pre = length pre' /\ (length a <= length a')%nat).
Proof.
  intros question a b Hsearch.
  destruct (sre_search_first _ _ _ Hsearch) as (pre & s0 & -> & Hm & Hfirst).
  exists pre. split.
  - destruct (sre_match_sound _ _ _ _ _ Hm) as (s' & g' & Hd & [= ->]).
    destruct (vs_matches_split_at _ _ _ Hd)
      as (a0 & b0 & [= <- <-] & ws1 & v & s & dot & ws2 & post & Heq & H).
    exists ws1, v, s, dot, ws2, post. split; [|exact H].
    simpl in Heq. by rewrite Heq.
  - intros pre' a' b'
      (ws1 & v & s & dot & ws2 & post & Heq & Ha & H1 & Hv & Hs & Hdot & H2
       & Hb & Hpost).
    destruct (Nat.lt_trichotomy (length pre) (length pre')) as [Hlt|[Hlen|Hgt]];
      [by left| |].
    + right. split; [done|].
      apply app_inj_1 in Heq as [<- ->]; [|done].
      destruct (Nat.le_gt_cases (length a) (length a')) as [|Hshort]; [done|].
      exfalso.
      destruct Ha as [Hane Haall]. destruct a' as [|c cs']; [done|].
      simpl in Haall. apply andb_prop in Haall as [Hc _].
      rewrite <- app_comm_cons in Hm.
      remember (cs' ++ ws1 ++ [v; s] ++ dot ++ ws2 ++ b' ++ post) as s1
        eqn:Es1.
      rewrite vs_pattern_unfold, Hc in Hm.
      apply min_tail_first in Hm as (cs & s' & -> & _ & Hk & Hfail).
      destruct (sre_match_sound _ _ _ _ _ Hk) as (s'' & g' & Hd & [= ->]).
      destruct (vs_rest_marks _ _ _ _ Hd) as [b0 [= _ ->]].
      assert (take (S (length (cs ++ s')) - length s') (c :: cs ++ s')
              = c :: cs) as Etake by apply take_consumed_cons.
      rewrite Etake in Hshort. simpl in Hshort.
      pose proof (Hfail cs' _ Es1 ltac:(lia)) as Hnone. cbv beta in Hnone.
      match type of Hnone with
      | sre_match _ _ ?g0 _ = _ =>
          destruct (vs_rest_matches ws1 v s dot ws2 b' post g0)
            as (s3 & g3 & Hd3); try done
      end.
      destruct (sre_match_complete _ _ _ _ _ Hd3 _ (fun _ g => Some g) g3
                  eq_refl) as [y Hy].
      assert (Some y = None) as [=].
      etrans; [symmetry; exact Hy | exact Hnone].
    + exfalso.
      assert (sre_match vs_pattern
                (a' ++ ws1 ++ [v; s] ++ dot ++ ws2 ++ b' ++ post) []
                (fun _ g => Some g) = None) as Hnone
        by (by apply (Hfirst pre')).
      destruct (vs_split_matches a' ws1 v s dot ws2 b' post)
        as (s3 & g3 & Hd3); try done.
      destruct (sre_match_complete _ _ _ _ _ Hd3 _ (fun _ g => Some g) g3
                  eq_refl) as [y Hy].
      assert (Some y = None) as [=].
      etrans; [symmetry; exact Hy | exact Hnone].
Qed.

Lemma first_vs_separates_witness :
  sre_search vs_pattern (py "A vs B vs C")
  = Some [(2%nat, py "B vs C"); (1%nat, py "A")]
  /\ exists pre,
      vs_split_at (py "A vs B vs C") pre (py "A") (py "B vs C")
      /\ forall pre' a' b',
          vs_split_at (py "A vs B vs C") pre' a' b' ->
          (length pre < length pre')%nat
          \/ (length pre = length pre'
              /\ (length (py "A") <= length a')%nat).
Proof.
  split; [by vm_compute|].
  apply (first_vs_separates (py "A vs B vs C") (py "A") (py "B vs C")).
  by vm_compute.
Defined.

(** ** Configuration *)

(** X11. [ShopSage()] is built exactly when both API keys are set and not
    empty. Without the Tavily key the error names that key, whatever the
    other one is; with it and without the OpenAI key the error names the
    OpenAI key. The model is [gpt-4o-mini] only when [OPENAI_MODEL] is not
    set: a value set in the environment, the empty string included, is
    kept. *)
Theorem shopsage_needs_both_keys :
  forall env : environ,
    (is_set (env (py "TAVILY_API_KEY")) = false ->
     ShopSage_init env
     = ValueError (py "TAVILY_API_KEY environment variable not set"))
    /\ (is_set (env (py "TAVILY_API_KEY")) = true ->
        is_set (env (py "OPENAI_API_KEY")) = false ->
        ShopSage_init env
        = ValueError (py "OPENAI_API_KEY environment variable not set"))
    /\ (is_set (env (py "TAVILY_API_KEY")) = true ->
        is_set (env (py "OPENAI_API_KEY")) = true ->
        exists sage,
          ShopSage_init env = Built sage
          /\ env (py "TAVILY_API_KEY") = Some (tavily_api_key (sage_scout sage))
          /\ env (py "OPENAI_API_KEY") = Some (api_key (sage_judge sage))
          /\ model (sage_judge sage)
             = match env (py "OPENAI_MODEL") with
               | Some name => name
               | None => py "gpt-4o-mini"
               end).
Proof.
  intros env. unfold ShopSage_init, ScoutAgent_init, JudgeAgent_init.
  destruct (env (py "TAVILY_API_KEY")) as [[|c1 k1]|];
    destruct (env (py "OPENAI_API_KEY")) as [[|c2 k2]|];
    simpl; (split; [|split]); try discriminate; try reflexivity;
    intros _ _; eexists; split; [reflexivity|]; split; [reflexivity|];
    split; [reflexivity|]; by destruct (env (py "OPENAI_MODEL")).
Qed.

Lemma shopsage_needs_both_keys_witness :
  ShopSage_init (env_of None None None)
  = ValueError (py "TAVILY_API_KEY environment variable not set")
  /\ ShopSage_init (env_of (Some (py "tvly-1")) (Some []) None)
     = ValueError (py "OPENAI_API_KEY environment variable not set")
  /\ exists sage,
      ShopSage_init (env_of (Some (py "tvly-1")) (Some (py "sk-1")) (Some []))
      = Built sage
      /\ model (sage_judge sage) = [].
Proof.
  split; [|split].
  - by apply (proj1 (shopsage_needs_both_keys (env_of None None None))).
  - by apply (proj1 (proj2 (shopsage_needs_both_keys
                              (env_of (Some (py "tvly-1")) (Some []) None)))).
  - destruct (proj2 (proj2 (shopsage_needs_both_keys
                              (env_of (Some (py "tvly-1")) (Some (py "sk-1"))
                                 (Some []))))
                eq_refl eq_refl) as (sage & H & _ & _ & Hm).
    exists sage. split; [exact H|exact Hm].
Defined.

(** X12. A module-level function ends in the constructor's [ValueError],
    with nothing sent and no hit written to, when its agent cannot be built,
    and otherwise does what the method does. [scout] needs the Tavily key
    only, [judge] and [enrich] the OpenAI key only, [run_pipeline] both. *)
Theorem module_functions_need_their_keys :
  forall json_loads json_dumps w (env : environ) question products k t,
    (is_set (env (py "TAVILY_API_KEY")) = true ->
     Convenience.scout json_loads w env question k t
     = (Built (fst (search json_loads w question k t)),
        snd (search json_loads w question k t)))
    /\ (is_set (env (py "TAVILY_API_KEY")) = false ->
        Convenience.scout json_loads w env question k t
        = (ValueError (py "TAVILY_API_KEY environment variable not set"), t)
        /\ Convenience.run_pipeline json_loads json_dumps w env question t
           = (ValueError (py "TAVILY_API_KEY environment variable not set"),
              t))
    /\ (is_set (env (py "OPENAI_API_KEY")) = true ->
        Convenience.judge json_loads json_dumps w env question products t
        = (Built (fst (judge_products json_loads json_dumps w question
                         products t)),
           snd (judge_products json_loads json_dumps w question products t)))
    /\ (is_set (env (py "OPENAI_API_KEY")) = false ->
        Convenience.judge json_loads json_dumps w env question products t
        = (ValueError (py "OPENAI_API_KEY environment variable not set"), t)
        /\ (is_set (env (py "TAVILY_API_KEY")) = true ->
            Convenience.run_pipeline json_loads json_dumps w env question t
            = (ValueError (py "OPENAI_API_KEY environment variable not set"),
               t)))
    /\ (is_set (env (py "TAVILY_API_KEY")) = true ->
        is_set (env (py "OPENAI_API_KEY")) = true ->
        Convenience.run_pipeline json_loads json_dumps w env question t
        = (Built (fst (run_pipeline json_loads json_dumps w question t)),
           snd (run_pipeline json_loads json_dumps w question t)))
    /\ (forall hits st,
           is_set (env (py "OPENAI_API_KEY")) = false ->
           enrich_configured w env hits st
           = (ValueError (py "OPENAI_API_KEY environment variable not set"),
              st))
    /\ (forall hits st,
           is_set (env (py "OPENAI_API_KEY")) = true ->
           enrich_configured w env hits st
           = (Built (fst (Store.enrich w hits st)),
              snd (Store.enrich w hits st))).
Proof.
  intros json_loads json_dumps w env question products k t.
  unfold Convenience.scout, Convenience.judge, Convenience.run_pipeline,
    enrich_configured, ShopSage_init, ScoutAgent_init, JudgeAgent_init.
  destruct (env (py "TAVILY_API_KEY")) as [[|c1 k1]|];
    destruct (env (py "OPENAI_API_KEY")) as [[|c2 k2]|];
    simpl; repeat split; try discriminate; try reflexivity;
    intros; repeat match goal with |- context [let (_, _) := ?x in _] =>
                            destruct x end; reflexivity.
Qed.

Lemma module_functions_need_their_keys_witness :
  Convenience.run_pipeline Json.loads Json.dumps (Fake.up Fake.full_verdict)
    (env_of None (Some (py "sk-1")) None) (py "best headphones under $500") []
  = (ValueError (py "TAVILY_API_KEY environment variable not set"), [])
  /\ Convenience.scout Json.loads Fake.down
       (env_of (Some (py "tvly-1")) None None) (py "Pixel 8 Pro") 8 []
     = (Built (Returned []), [Search (py "Pixel 8 Pro") 8]).
Proof.
  split.
  - by apply (proj1 (proj2 (module_functions_need_their_keys Json.loads
                              Json.dumps (Fake.up Fake.full_verdict)
                              (env_of None (Some (py "sk-1")) None)
                              (py "best headphones under $500") [] 8 []))).
  - by rewrite (proj1 (module_functions_need_their_keys Json.loads
                         Json.dumps Fake.down
                         (env_of (Some (py "tvly-1")) None None)
                         (py "Pixel 8 Pro") [] 8 []) eq_refl).
Defined.

(** ** The module-level [enrich], step by step *)

Section EnrichFacts.

Variable w : backends.

Lemma enrich_step hit rest st d snippet :
  Store.heap st !! hit = Some d ->
  dict_lookup k_snippet d = Some snippet ->
  Store.enrich_each w (hit :: rest) st
  = Store.enrich_each w rest (after_summary w st hit d snippet).
Proof.
  intros Hd Hs. cbn [Store.enrich_each]. unfold bind at 1, Store.getitem.
  rewrite Hd. simpl py_item. rewrite Hs.
  unfold bind at 1, Store.extract, extract_product_info.
  rewrite call_openai_returns.
  unfold bind at 1, Store.setitem. simpl Store.heap. rewrite Hd.
  reflexivity.
Qed.

Lemma enrich_without_snippet hit rest st d :
  Store.heap st !! hit = Some d ->
  dict_lookup k_snippet d = None ->
  Store.enrich_each w (hit :: rest) st = (Raised KeyError, st).
Proof.
  intros Hd Hs. cbn [Store.enrich_each]. unfold bind at 1, Store.getitem.
  rewrite Hd. simpl py_item. by rewrite Hs.
Qed.

Lemma snippets_stay hits st hit d snippet :
  hits_have_snippets st hits ->
  Store.heap st !! hit = Some d ->
  dict_lookup k_snippet d = Some snippet ->
  hits_have_snippets (after_summary w st hit d snippet) hits.
Proof.
  intros Hpre Hd Hs l Hl. destruct (decide (l = hit)) as [->|Hne].
  - eexists. simpl. rewrite lookup_insert_eq. split; [reflexivity|].
    rewrite dict_lookup_set_ne; [by eauto|apply snippet_is_not_summary].
  - destruct (Hpre l Hl) as (d' & Hd' & Hs').
    exists d'. simpl. by rewrite lookup_insert_ne.
Qed.

Lemma enrich_each_requests hits :
  forall st,
    hits_have_snippets st hits ->
    exists st' chats,
      Store.enrich_each w hits st = (Returned tt, st')
      /\ Store.sent st' = Store.sent st ++ chats
      /\ length chats = length hits
      /\ Forall is_extract_chat chats.
Proof.
  induction hits as [|hit rest IH]; intros st Hpre.
  - exists st, []. rewrite app_nil_r. repeat split; constructor.
  - destruct (Hpre hit) as (d & Hd & [sn Hsn]); [by left|].
    destruct (IH (after_summary w st hit d sn)) as (st' & chats & Hrun & Hsent
                                                    & Hlen & Hchats).
    { apply snippets_stay; try done. intros l Hl. apply Hpre. by right. }
    exists st', (Chat extract_system_prompt sn false :: chats).
    rewrite (enrich_step _ _ _ _ _ Hd Hsn). split; [exact Hrun|].
    split; [|split].
    + rewrite Hsent. simpl. by rewrite <- app_assoc.
    + simpl. by rewrite Hlen.
    + constructor; [by exists sn|done].
Qed.

Lemma enrich_each_app xs ys st :
  Store.enrich_each w (xs ++ ys) st
  = match Store.enrich_each w xs st with
    | (Returned _, st1) => Store.enrich_each w ys st1
    | (Raised e, st1) => (Raised e, st1)
    end.
Proof.
  revert st. induction xs as [|x xs IH]; intros st; [reflexivity|].
  cbn [app Store.enrich_each]. unfold bind.
  destruct (Store.getitem x k_snippet st) as [[snippet|e] st1]; [|done].
  destruct (Store.extract w snippet st1) as [[summary|e] st2]; [|done].
  destruct (Store.setitem x k_summary (VStr summary) st2) as [[u|e] st3];
    [|done].
  apply IH.
Qed.

Lemma keys_dict_set k v d :
  keys (dict_set k v d)
  = match dict_lookup k d with
    | Some _ => keys d
    | None => keys d ++ [k]
    end.
Proof.
  unfold keys. induction d as [|[k' v'] d IH]; simpl; [done|].
  destruct (decide (k' = k)); simpl; [done|].
  rewrite IH. by destruct (dict_lookup k d).
Qed.

End EnrichFacts.

(** X13. When a hit of the list has no snippet, [enrich] raises [KeyError]
    there and stops: the hits before it already carry their summaries, one
    request was sent for each of them, and every other object, the hits after
    it included, is as it was. *)
Theorem enrich_stops_at_a_hit_without_snippet :
  forall w done bad rest st d,
    hits_have_snippets st done ->
    Store.heap st !! bad = Some d ->
    dict_lookup k_snippet d = None ->
    exists st' chats,
      Store.enrich w (done ++ bad :: rest) st = (Raised KeyError, st')
      /\ Store.sent st' = Store.sent st ++ chats
      /\ length chats = length done
      /\ (forall l, l ∉ done -> Store.heap st' !! l = Store.heap st !! l)
      /\ (forall l d0,
             l ∈ done -> Store.heap st !! l = Some d0 ->
             exists summary,
               Store.heap st' !! l
               = Some (dict_set k_summary (VStr summary) d0)).
Proof.
  intros w done bad rest st d Hpre Hd Hs.
  destruct (enrich_each_requests w done st Hpre)
    as (st' & chats & Hrun & Hsent & Hlen & _).
  destruct (enrich_each_spec w done st Hpre) as (st1 & Hrun1 & Hframe & Hset).
  rewrite Hrun in Hrun1. injection Hrun1 as <-.
  assert (bad ∉ done) as Hbad.
  { intros Hin. destruct (Hpre bad Hin) as (d' & Hd' & [sn Hsn]).
    congruence. }
  exists st', chats.
  split; [|split; [done|]; split; [done|]; split; [done|done]].
  unfold Store.enrich, bind. rewrite enrich_each_app, Hrun.
  rewrite (enrich_without_snippet w bad rest st' d); [done| |done].
  by rewrite (Hframe bad Hbad).
Qed.

Lemma enrich_stops_at_a_hit_without_snippet_witness :
  exists st' summary,
    Store.enrich (Fake.up Fake.full_verdict) [0%nat; 1%nat; 2%nat]
      two_hits_one_bare = (Raised KeyError, st')
    /\ length (Store.sent st') = 1%nat
    /\ Store.heap st' !! 0%nat
       = Some [ (k_title, VStr (py "Pixel 8 Pro"));
                (k_url, VStr (py "https://shop.example/0"));
                (k_snippet, VStr (py "4.5 stars, $199"));
                (k_summary, VStr summary) ]
    /\ Store.heap st' !! 2%nat
       = Some [ (k_title, VStr (py "Sony XM5"));
                (k_snippet, VStr (py "30 hours of battery")) ].
Proof.
  destruct (enrich_stops_at_a_hit_without_snippet (Fake.up Fake.full_verdict)
              [0%nat] 1%nat [2%nat] two_hits_one_bare
              [ (k_title, VStr (py "iPhone 15 Pro")) ])
    as (st' & chats & Hrun & Hsent & Hlen & Hframe & Hset).
  { intros l Hl. apply list_elem_of_singleton in Hl as ->.
    eexists. split; [by vm_compute|]. by eexists; vm_compute. }
  { by vm_compute. }
  { reflexivity. }
  destruct (Hset 0%nat
              [ (k_title, VStr (py "Pixel 8 Pro"));
                (k_url, VStr (py "https://shop.example/0"));
                (k_snippet, VStr (py "4.5 stars, $199")) ])
    as (summary & Hd0); [by left|by vm_compute|].
  exists st', summary. split; [exact Hrun|]. split; [|split].
  - rewrite Hsent. simpl. by rewrite Hlen.
  - exact Hd0.
  - rewrite Hframe; [by vm_compute|].
    intros Hin. apply list_elem_of_singleton in Hin. discriminate.
Defined.

(** X14. On hits that all have a snippet [enrich] sends one summary request
    per entry of the list, also for an object listed twice, and each hit ends
    with the keys it had, in their order, with [summary] added at the end
    when it was not there before. *)
Theorem enrich_asks_once_per_entry_and_keeps_the_keys :
  forall w hits st,
    hits_have_snippets st hits ->
    exists st' chats,
      Store.enrich w hits st = (Returned hits, st')
      /\ Store.sent st' = Store.sent st ++ chats
      /\ length chats = length hits
      /\ Forall is_extract_chat chats
      /\ forall l d,
          l ∈ hits -> Store.heap st !! l = Some d ->
          exists d',
            Store.heap st' !! l = Some d'
            /\ keys d' = match dict_lookup k_summary d with
                         | Some _ => keys d
                         | None => keys d ++ [k_summary]
                         end.
Proof.
  intros w hits st Hpre.
  destruct (enrich_each_requests w hits st Hpre)
    as (st' & chats & Hrun & Hsent & Hlen & Hchats).
  destruct (enrich_each_spec w hits st Hpre) as (st1 & Hrun1 & _ & Hset).
  rewrite Hrun in Hrun1. injection Hrun1 as <-.
  exists st', chats.
  split; [unfold Store.enrich, bind; by rewrite Hrun|].
  split; [done|]. split; [done|]. split; [done|].
  intros l d Hl Hd. destruct (Hset l d Hl Hd) as [summary Hs].
  eexists. split; [exact Hs|]. apply keys_dict_set.
Qed.

Lemma enrich_asks_once_per_entry_and_keeps_the_keys_witness :
  exists st' d',
    Store.enrich (Fake.up Fake.full_verdict) [0%nat; 2%nat; 0%nat]
      two_hits_one_bare = (Returned [0%nat; 2%nat; 0%nat], st')
    /\ length (Store.sent st') = 3%nat
    /\ Store.heap st' !! 2%nat = Some d'
    /\ keys d' = [k_title; k_snippet; k_summary].
Proof.
  destruct (enrich_asks_once_per_entry_and_keeps_the_keys
              (Fake.up Fake.full_verdict) [0%nat; 2%nat; 0%nat]
              two_hits_one_bare)
    as (st' & chats & Hrun & Hsent & Hlen & _ & Hkeys).
  { intros l Hl.
    apply elem_of_cons in Hl as [->|Hl];
      [|apply elem_of_cons in Hl as [->|Hl];
        [|apply list_elem_of_singleton in Hl as ->]];
      eexists; (split; [by vm_compute|]); by eexists; vm_compute. }
  destruct (Hkeys 2%nat
              [ (k_title, VStr (py "Sony XM5"));
                (k_snippet, VStr (py "30 hours of battery")) ])
    as (d' & Hd' & Hk); [by right; left|by vm_compute|].
  exists st', d'. split; [exact Hrun|]. split; [|split].
  - rewrite Hsent. simpl. by rewrite Hlen.
  - exact Hd'.
  - exact Hk.
Defined.


(** ** The front end *)

Lemma rev_lookup {A} (l : list A) i :
  (i < length l)%nat -> rev l !! i = l !! (length l - S i)%nat.
Proof.
  intros Hi. rewrite rev_alt.
  change (rev_append l []) with (reverse l). by apply reverse_lookup.
Qed.

(** X15. The "Recent Searches" buttons show the last five entries of the
    history, newest first: there are as many as the history has entries but
    at most five, the i-th from the top is the i-th from the end of the
    history, and the entry just remembered is on top. *)
Theorem recent_searches_are_the_last_five_newest_first :
  forall search_history : list value,
    length (App.recent_searches search_history)
    = Nat.min 5 (length search_history)
    /\ (forall i,
           (i < Nat.min 5 (length search_history))%nat ->
           App.recent_searches search_history !! i
           = search_history !! (length search_history - S i)%nat)
    /\ (forall question result,
           App.recent_searches (App.remember search_history question result)
           !! 0%nat
           = Some (VDict [ (k_query, VStr question);
                           (py "result", result) ])).
Proof.
  intros h. unfold App.recent_searches, App.slice_last.
  assert (forall l : list value,
             length (rev (drop (length l - 5) l)) = Nat.min 5 (length l))
    as Hlen.
  { intros l. rewrite length_rev, length_drop.
    destruct (Nat.min_spec 5 (length l)) as [[? ->]|[? ->]]; lia. }
  assert (forall (l : list value) i,
             (i < Nat.min 5 (length l))%nat ->
             rev (drop (length l - 5) l) !! i = l !! (length l - S i)%nat)
    as Hget.
  { intros l i Hi.
    destruct (Nat.min_spec 5 (length l)) as [[? Hm]|[? Hm]];
      rewrite Hm in Hi;
      (rewrite rev_lookup; [|rewrite length_drop; lia]);
      rewrite lookup_drop, length_drop; f_equal; lia. }
  split; [apply Hlen|]. split; [apply Hget|].
  intros question result. unfold App.remember.
  rewrite Hget; [|apply Nat.min_glb_lt; rewrite ?length_app; simpl; lia].
  rewrite length_app. simpl.
  replace (length h + 1 - 1)%nat with (length h + 0)%nat by lia.
  by rewrite lookup_app_r, Nat.add_0_r, Nat.sub_diag by lia.
Qed.

Lemma recent_searches_are_the_last_five_newest_first_witness :
  App.recent_searches
    (List.map (fun c => VStr [c]) (py "abcdefg")) !! 1%nat
  = Some (VStr (py "f")).
Proof.
  rewrite (proj1 (proj2 (recent_searches_are_the_last_five_newest_first
                           (List.map (fun c => VStr [c]) (py "abcdefg"))))
             1%nat); [reflexivity|].
  vm_compute. lia.
Defined.

Lemma map_lookup {A B} (f : A -> B) (l : list A) i :
  (List.map f l) !! i = f <$> (l !! i).
Proof.
  revert i. induction l as [|x l IH]; intros [|i]; simpl; auto.
Qed.

(** X16. The name of a downloaded file is [shopsage_], the kind, an
    underscore, a stem and the extension. The stem is made of the first 20
    characters of the question, each space replaced by an underscore: it has
    at most 20 characters and no space, and every other character, a slash
    or a tab included, is kept as it is. *)
Theorem file_name_stem_is_short_and_without_spaces :
  forall kind ext question,
    exists stem,
      App.file_name kind ext question
      = py "shopsage_" ++ kind ++ py "_" ++ stem ++ ext
      /\ length stem = Nat.min 20 (length question)
      /\ (32 ∉ stem)
      /\ forall i c,
          (i < 20)%nat -> question !! i = Some c ->
          stem !! i = Some (if c =? 32 then 95 else c).
Proof.
  intros kind ext question.
  exists (App.underscore_spaces (take 20 question)).
  split; [reflexivity|]. unfold App.underscore_spaces. split; [|split].
  - by rewrite length_map, length_take.
  - intros Hin. apply list_elem_of_In, in_map_iff in Hin as (c & Hc & _).
    destruct (N.eqb_spec c 32); [discriminate|done].
  - intros i c Hi Hc. rewrite map_lookup, lookup_take_lt by done.
    unfold pystr, char in *. by rewrite Hc.
Qed.

Lemma file_name_stem_is_short_and_without_spaces_witness :
  exists stem,
    App.file_name (py "result") (py ".json")
      (py "best headphones under $500")
    = py "shopsage_result_" ++ stem ++ py ".json"
    /\ length stem = 20%nat
    /\ (32 ∉ stem)
    /\ stem !! 4%nat = Some 95.
Proof.
  destruct (file_name_stem_is_short_and_without_spaces (py "result")
              (py ".json") (py "best headphones under $500"))
    as (stem & Hname & Hlen & Hno & Hget).
  exists stem. split; [exact Hname|]. split; [exact Hlen|].
  split; [exact Hno|]. by apply (Hget 4%nat 32); [lia|].
Defined.

(** ** The queries that are searched *)




